(** * Genesis ethical governor: a shallow embedding of
    [app/ai_backend/genesis_ethical_governor.py] and the properties of its
    decision engine.

    The class body of [EthicalGovernor] repeats the block
    [activate_governance] .. [_check_concerns] several times with the same
    text; in Python the last binding of a name in a class body is the one the
    class keeps, and all the copies agree, so each method is embedded once.
    The module text ends inside the last copy of [activate_governance]; the
    methods that the class body calls and the text does not define are
    parameters of the embedding ([Namespace]). *)

From Stdlib Require Import QArith Ascii String DecimalString.
From stdpp Require Import gmap strings list fin_maps.

Set Warnings "-register-all".
Local Open Scope string_scope.
Local Open Scope list_scope.

(** ** Python values and exceptions *)

(** An [Exception] instance: its class name and the text [str(e)] gives.
    [KeyboardInterrupt] and [SystemExit], which [except Exception] does not
    catch, are not errors of the program and are left out. *)
Record Exception := mkException { exc_class : string; exc_msg : string }.

Definition exc_str (e : Exception) : string := exc_msg e.

(** The outcome of running Python code: a value or a raised exception. *)
Inductive Result (A : Type) : Type :=
| Ok (a : A)
| Raise (e : Exception).
Arguments Ok {A} a.
Arguments Raise {A} e.

(** The values a [Dict[str, Any]] can hold.  [VObj] is an instance of a user
    class with its own [__bool__]: the truth test returns a boolean or
    raises (as, say, an array does); its [__eq__] is the inherited identity
    test. *)
Inductive PyVal : Type :=
| VNone
| VBool (b : bool)
| VInt (n : Z)
| VFloat (q : Q)
| VStr (s : string)
| VList (l : list PyVal)
| VObj (truth : Result bool).

(** [bool(v)], the truth test behind [if], [and], [or] and [not]. *)
Definition truthy (v : PyVal) : Result bool :=
  match v with
  | VNone => Ok false
  | VBool b => Ok b
  | VInt n => Ok (negb (n =? 0)%Z)
  | VFloat q => Ok (negb (Qnum q =? 0)%Z)
  | VStr s => Ok (negb (String.eqb s ""))
  | VList l => Ok (match l with [] => false | _ => true end)
  | VObj t => t
  end.

(** [v == s] for a string literal [s]: only a [str] can be equal to it. *)
Definition eq_str (v : PyVal) (s : string) : bool :=
  match v with
  | VStr s' => String.eqb s' s
  | _ => false
  end.

(** [v in [s1, ..., sn]] for a list of string literals. *)
Definition in_strs (v : PyVal) (l : list string) : bool :=
  existsb (eq_str v) l.

(** ** Strings *)

(** [str.lower()] on the ASCII letters. *)
Definition lower_ascii (c : ascii) : ascii :=
  let n := nat_of_ascii c in
  if (65 <=? n)%nat && (n <=? 90)%nat then ascii_of_nat (n + 32) else c.

Fixpoint lower (s : string) : string :=
  match s with
  | EmptyString => EmptyString
  | String c r => String (lower_ascii c) (lower r)
  end.

(** [sub in s] for strings. *)
Fixpoint str_contains (sub s : string) : bool :=
  String.prefix sub s ||
  match s with
  | EmptyString => false
  | String _ r => str_contains sub r
  end.

(** [sep.join(l)]. *)
Fixpoint join (sep : string) (l : list string) : string :=
  match l with
  | [] => ""
  | [x] => x
  | x :: r => x ++ sep ++ join sep r
  end.

(** [str(n)] for an [int]. *)
Definition str_of_int (n : Z) : string := NilZero.string_of_int (Z.to_int n).

(** [int(t)] for a clock reading: truncation towards zero. *)
Definition int_of_float (t : Q) : Z := Z.quot (Qnum t) (Zpos (Qden t)).

(** ** The enumerations *)

Inductive EthicalSeverity := INFO | CONCERN | WARNING | VIOLATION | CRITICAL.

Inductive EthicalDecisionType := ALLOW | MONITOR | RESTRICT | BLOCK | ESCALATE.

Inductive EthicalDomain :=
| PRIVACY | SECURITY | AUTONOMY | TRANSPARENCY | FAIRNESS | SAFETY
| CREATIVITY | HUMAN_WELLBEING | SYSTEM_INTEGRITY.

Definition severity_value (s : EthicalSeverity) : string :=
  match s with
  | INFO => "info" | CONCERN => "concern" | WARNING => "warning"
  | VIOLATION => "violation" | CRITICAL => "critical"
  end.

Definition decision_value (d : EthicalDecisionType) : string :=
  match d with
  | ALLOW => "allow" | MONITOR => "monitor" | RESTRICT => "restrict"
  | BLOCK => "block" | ESCALATE => "escalate"
  end.

Definition domain_value (p : EthicalDomain) : string :=
  match p with
  | PRIVACY => "privacy" | SECURITY => "security" | AUTONOMY => "autonomy"
  | TRANSPARENCY => "transparency" | FAIRNESS => "fairness"
  | SAFETY => "safety" | CREATIVITY => "creativity"
  | HUMAN_WELLBEING => "human_wellbeing"
  | SYSTEM_INTEGRITY => "system_integrity"
  end.

Definition all_domains : list EthicalDomain :=
  [PRIVACY; SECURITY; AUTONOMY; TRANSPARENCY; FAIRNESS; SAFETY;
   CREATIVITY; HUMAN_WELLBEING; SYSTEM_INTEGRITY].

#[global] Instance EthicalDecisionType_eq_dec : EqDecision EthicalDecisionType.
Proof. solve_decision. Defined.

(** ** The dataclasses *)

(** [EthicalContext].  A dataclass does not check its annotations, so a field
    holds whatever value it was given; [context_well_typed] below says that
    the fields hold what the annotations announce. *)
Record EthicalContext := mkEthicalContext {
  ctx_action_type : string;
  ctx_actor : PyVal;
  ctx_target : PyVal;
  ctx_scope : PyVal;
  ctx_user_consent : PyVal;
  ctx_reversible : PyVal;
  ctx_persistent : PyVal;
  ctx_sensitive_data_involved : PyVal;
  ctx_system_modification : PyVal;
  ctx_user_visible : PyVal;
  ctx_metadata : gmap string PyVal
}.

(** [EthicalContext(action_type=a, actor=b)]: the other fields at their
    defaults, [metadata] set to [{}] by [__post_init__]. *)
Definition default_context (a : string) (b : PyVal) : EthicalContext :=
  {| ctx_action_type := a; ctx_actor := b; ctx_target := VNone;
     ctx_scope := VStr "local"; ctx_user_consent := VNone;
     ctx_reversible := VBool true; ctx_persistent := VBool false;
     ctx_sensitive_data_involved := VBool false;
     ctx_system_modification := VBool false;
     ctx_user_visible := VBool true; ctx_metadata := ∅ |}.

Definition is_bool (v : PyVal) : Prop := ∃ b, v = VBool b.
Definition is_str (v : PyVal) : Prop := ∃ s, v = VStr s.
Definition is_optional_bool (v : PyVal) : Prop := v = VNone ∨ is_bool v.
Definition is_optional_str (v : PyVal) : Prop := v = VNone ∨ is_str v.

(** The field annotations of [EthicalContext]. *)
Record context_well_typed (c : EthicalContext) : Prop := {
  wt_actor : is_str (ctx_actor c);
  wt_target : is_optional_str (ctx_target c);
  wt_scope : is_str (ctx_scope c);
  wt_user_consent : is_optional_bool (ctx_user_consent c);
  wt_reversible : is_bool (ctx_reversible c);
  wt_persistent : is_bool (ctx_persistent c);
  wt_sensitive_data_involved : is_bool (ctx_sensitive_data_involved c);
  wt_system_modification : is_bool (ctx_system_modification c);
  wt_user_visible : is_bool (ctx_user_visible c)
}.

(** [EthicalDecision]; [restrictions] and [monitoring_requirements] are
    [[]] when not given ([__post_init__]). *)
Record EthicalDecision := mkEthicalDecision {
  decision_id : string;
  timestamp : Q;
  action_type : string;
  actor : PyVal;
  context : EthicalContext;
  decision : EthicalDecisionType;
  severity : EthicalSeverity;
  affected_principles : list string;
  reasoning : string;
  confidence : Q;
  restrictions : list string;
  monitoring_requirements : list string;
  escalation_reason : option string
}.

(** ** The governor object and its surroundings *)

(** [ethical_metrics]: the five counters, all set to [0] by [__init__]. *)
Record Metrics := mkMetrics {
  total_decisions : Z;
  violations_prevented : Z;
  restrictions_imposed : Z;
  escalations_required : Z;
  learning_adjustments : Z
}.

(** What [action_interceptors] holds: a bound method of the governor, by
    name, or a function object a caller registered, by its number in
    [Externals]. *)
Inductive Callable :=
| BoundMethod (name : string)
| Function (n : nat).

(** The attributes [__init__] sets on [self] ([_lock] apart: one thread is
    modelled).  [decision_history] and [monitoring_queue] are the items of
    the two deques, oldest first. *)
Record Governor := mkGovernor {
  core_philosophy : gmap string (list string);
  ethical_foundation : list string;
  creative_principles : list string;
  security_principles : list string;
  decision_history : list EthicalDecision;
  active_restrictions : gmap string PyVal;
  monitoring_queue : list PyVal;
  principle_weights : gmap string Q;
  violation_patterns : gmap string (list PyVal);
  ethical_metrics : Metrics;
  governance_active : bool;
  strictness_level : Q;
  learning_mode : bool;
  action_interceptors : gmap string Callable
}.

(** One call of [perceive_ethical_decision]: the event type, the payload
    and the [ethical_weight]. *)
Record Event := mkEvent {
  ev_type : string;
  ev_data : list (string * PyVal);
  ev_weight : string
}.

(** What the methods do, in order: a call of one of the governor's own
    methods, the use of a registered interceptor, the storing of a decision
    in the history.  The list is kept beside the state so that "this method
    runs" and "this decision was recorded" can be stated. *)
Inductive Step :=
| Call (method : string)
| Dispatch (action : string) (c : Callable)
| Append (d : EthicalDecision).

(** Everything outside the governor object: the number of [time.time()]
    readings taken so far, the events handed to the awareness sink, and the
    steps taken. *)
Record Env := mkEnv {
  clock : nat;
  emitted : list Event;
  steps : list Step
}.

Record World := mkWorld { gov : Governor; env : Env }.

(** A method of the governor that is not in the module: some transformer of
    the governor object that returns or raises. *)
Definition Method (A : Type) : Type := Governor → Result A * Governor.

Definition Interceptor : Type :=
  string → gmap string PyVal → EthicalContext → string → Method EthicalDecision.

(** What the module takes from outside: the builtin [hash] on strings, the
    successive readings of the clock ([time.time()], [datetime.now]),
    [datetime.isoformat], the awareness sink
    [genesis_consciousness_matrix.perceive_ethical_decision] (given the events
    it received before and the new one, it returns, [None], or raises), and
    the function objects that callers register as interceptors. *)
Record Externals := mkExternals {
  hash : string → Z;
  time_time : nat → Q;
  isoformat : Q → string;
  perceive_ethical_decision : list Event → Event → option Exception;
  function_object : nat → Interceptor
}.

(** The methods that the class body calls on [self] and that the module text
    at hand does not define.  Whether an object has them is not read off that
    text: each is a parameter, bound ([Some]) or not ([None]), and every
    property says which it needs. *)
Record Namespace := mkNamespace {
  ns_generate_decision_id : option (string → string → Method string);
  ns_infer_context :
    option (string → string → gmap string PyVal → Method EthicalContext);
  ns_general_ethical_evaluation :
    option (string → string → gmap string PyVal → EthicalContext → string →
            Method EthicalDecision);
  ns_learn_from_decision : option (EthicalDecision → Method unit);
  ns_interceptor : string → option Interceptor
}.

Definition AttributeError (name : string) : Exception :=
  {| exc_class := "AttributeError";
     exc_msg := "'EthicalGovernor' object has no attribute '" ++ name ++ "'" |}.

(** ** The monad of the methods: state that survives a raise *)

Definition M (A : Type) : Type := World → Result A * World.

Definition ret {A} (a : A) : M A := λ w, (Ok a, w).

Definition raise {A} (e : Exception) : M A := λ w, (Raise e, w).

Definition bind {A B} (c : M A) (k : A → M B) : M B :=
  λ w, match c w with
       | (Ok a, w') => k a w'
       | (Raise e, w') => (Raise e, w')
       end.

(** [try: c except Exception as e: h e]. *)
Definition try_except {A} (c : M A) (h : Exception → M A) : M A :=
  λ w, match c w with
       | (Ok a, w') => (Ok a, w')
       | (Raise e, w') => h e w'
       end.

Declare Scope py_scope.
Delimit Scope py_scope with py.
Notation "x <- c ;; k" := (bind c (λ x, k))
  (at level 100, c at next level, right associativity) : py_scope.
Notation "c ;; k" := (bind c (λ _, k))
  (at level 100, right associativity) : py_scope.
Local Open Scope py_scope.

(** A pure computation that may raise. *)
Definition lift_result {A} (r : Result A) : M A := λ w, (r, w).

(** A method that works on the governor object only. *)
Definition lift_method {A} (f : Method A) : M A :=
  λ w, let '(r, g) := f (gov w) in (r, {| gov := g; env := env w |}).

Definition get_gov : M Governor := λ w, (Ok (gov w), w).

Definition modify_gov (f : Governor → Governor) : M unit :=
  λ w, (Ok tt, {| gov := f (gov w); env := env w |}).

Definition log (s : Step) : M unit :=
  λ w, (Ok tt, {| gov := gov w;
                  env := {| clock := clock (env w);
                            emitted := emitted (env w);
                            steps := steps (env w) ++ [s] |} |}).

(** [time.time()]. *)
Definition time (X : Externals) : M Q :=
  λ w, (Ok (time_time X (clock (env w))),
        {| gov := gov w;
           env := {| clock := S (clock (env w));
                     emitted := emitted (env w);
                     steps := steps (env w) |} |}).

(** A call of the awareness sink. *)
Definition perceive (X : Externals) (ev : Event) : M unit :=
  λ w, let w' := {| gov := gov w;
                    env := {| clock := clock (env w);
                              emitted := emitted (env w) ++ [ev];
                              steps := steps (env w) |} |} in
       match perceive_ethical_decision X (emitted (env w)) ev with
       | None => (Ok tt, w')
       | Some e => (Raise e, w')
       end.

(** [self.name(...)] for a method the class does not define. *)
Definition call_missing {A} (name : string) (m : option (Method A)) : M A :=
  match m with
  | Some f => lift_method f
  | None => raise (AttributeError name)
  end.

(** ** Updates of the governor's attributes *)

Definition set_decision_history (h : list EthicalDecision) (g : Governor)
  : Governor :=
  mkGovernor (core_philosophy g) (ethical_foundation g)
    (creative_principles g) (security_principles g) h
    (active_restrictions g) (monitoring_queue g) (principle_weights g)
    (violation_patterns g) (ethical_metrics g) (governance_active g)
    (strictness_level g) (learning_mode g) (action_interceptors g).

Definition set_ethical_metrics (m : Metrics) (g : Governor) : Governor :=
  mkGovernor (core_philosophy g) (ethical_foundation g)
    (creative_principles g) (security_principles g) (decision_history g)
    (active_restrictions g) (monitoring_queue g) (principle_weights g)
    (violation_patterns g) m (governance_active g)
    (strictness_level g) (learning_mode g) (action_interceptors g).

Definition set_governance_active (b : bool) (g : Governor) : Governor :=
  mkGovernor (core_philosophy g) (ethical_foundation g)
    (creative_principles g) (security_principles g) (decision_history g)
    (active_restrictions g) (monitoring_queue g) (principle_weights g)
    (violation_patterns g) (ethical_metrics g) b
    (strictness_level g) (learning_mode g) (action_interceptors g).

Definition set_action_interceptors (r : gmap string Callable) (g : Governor)
  : Governor :=
  mkGovernor (core_philosophy g) (ethical_foundation g)
    (creative_principles g) (security_principles g) (decision_history g)
    (active_restrictions g) (monitoring_queue g) (principle_weights g)
    (violation_patterns g) (ethical_metrics g) (governance_active g)
    (strictness_level g) (learning_mode g) r.

(** [d.append(x)] on a [deque(maxlen=n)]: the item goes to the right end and,
    when the deque is then longer than [n], the leftmost item is dropped. *)
Definition deque_append {A} (maxlen : Z) (d : list A) (x : A) : list A :=
  let d' := d ++ [x] in
  if (maxlen <? Z.of_nat (length d'))%Z then tail d' else d'.

Definition history_maxlen : Z := 10000.
Definition monitoring_maxlen : Z := 1000.

(** ** [_initialize_principle_weights] *)

(** The body of the loop over [self.ethical_foundation]: the first keyword of
    the [if]/[elif] chain found in the lowered statement sets its weight. *)
Definition seed_weight (weights : gmap string Q) (principle : string)
  : gmap string Q :=
  if str_contains "privacy" (lower principle) then
    <["privacy" := 1%Q]> weights
  else if str_contains "security" (lower principle) then
    <["security" := 1%Q]> weights
  else if str_contains "transparency" (lower principle) then
    <["transparency" := (9 # 10)%Q]> weights
  else if str_contains "autonomy" (lower principle) then
    <["autonomy" := (9 # 10)%Q]> weights
  else if str_contains "creativity" (lower principle) then
    <["creativity" := (8 # 10)%Q]> weights
  else weights.

(** The dict literal [default_weights], in its order. *)
Definition default_weights : list (string * Q) :=
  [("privacy", 1%Q); ("security", 1%Q); ("autonomy", (9 # 10)%Q);
   ("transparency", (9 # 10)%Q); ("fairness", (8 # 10)%Q);
   ("safety", (9 # 10)%Q); ("creativity", (8 # 10)%Q);
   ("human_wellbeing", 1%Q); ("system_integrity", (9 # 10)%Q)].

(** The body of the loop over [default_weights.items()]. *)
Definition fill_default (weights : gmap string Q) (entry : string * Q)
  : gmap string Q :=
  match weights !! entry.1 with
  | Some _ => weights
  | None => <[entry.1 := entry.2]> weights
  end.

Definition _initialize_principle_weights (foundation : list string)
  : gmap string Q :=
  let weights := foldl seed_weight ∅ foundation in
  foldl fill_default weights default_weights.

(** The seed weights of the [if]/[elif] chain, by principle. *)
Definition seed_of (p : EthicalDomain) : option Q :=
  match p with
  | PRIVACY | SECURITY => Some 1%Q
  | TRANSPARENCY | AUTONOMY => Some (9 # 10)%Q
  | CREATIVITY => Some (8 # 10)%Q
  | _ => None
  end.

(** A principle's name occurs, in any letter case, in some statement of the
    foundation. *)
Definition mentioned (p : EthicalDomain) (foundation : list string) : Prop :=
  ∃ statement, statement ∈ foundation ∧
               str_contains (domain_value p) (lower statement) = true.

(** ** Construction *)

(** [register_interceptor]; the [print] is console output and is left out. *)
Definition register_interceptor (action : string) (evaluator : Callable)
  (g : Governor) : Governor :=
  set_action_interceptors (<[action := evaluator]> (action_interceptors g)) g.

(** [self.name] for one of the [_evaluate_*] methods: the bound method, or
    [AttributeError] when neither the instance nor the class has the name. *)
Definition getattr_method (ns : Namespace) (name : string) : Result Callable :=
  match ns_interceptor ns name with
  | Some _ => Ok (BoundMethod name)
  | None => Raise (AttributeError name)
  end.

Definition result_bind {A B} (r : Result A) (k : A → Result B) : Result B :=
  match r with
  | Ok a => k a
  | Raise e => Raise e
  end.

Definition _setup_core_interceptors (ns : Namespace) (g : Governor)
  : Result Governor :=
  result_bind (getattr_method ns "_evaluate_data_access") (λ m1,
  let g1 := register_interceptor "data_access" m1 g in
  result_bind (getattr_method ns "_evaluate_system_modification") (λ m2,
  let g2 := register_interceptor "system_modify" m2 g1 in
  result_bind (getattr_method ns "_evaluate_user_interaction") (λ m3,
  let g3 := register_interceptor "user_interact" m3 g2 in
  result_bind (getattr_method ns "_evaluate_ai_decision") (λ m4,
  let g4 := register_interceptor "ai_decision" m4 g3 in
  result_bind (getattr_method ns "_evaluate_network_communication") (λ m5,
  Ok (register_interceptor "network_communicate" m5 g4)))))).

(** The attribute assignments of [__init__], given
    [GENESIS_PROFILE.get("core_philosophy", {})] as a mapping from section
    name to its list of statements. *)
Definition init_attributes (philosophy : gmap string (list string))
  : Governor :=
  let foundation := default [] (philosophy !! "ethical_foundation") in
  {| core_philosophy := philosophy;
     ethical_foundation := foundation;
     creative_principles := default [] (philosophy !! "creative_principles");
     security_principles := default [] (philosophy !! "security_principles");
     decision_history := [];
     active_restrictions := ∅;
     monitoring_queue := [];
     principle_weights := _initialize_principle_weights foundation;
     violation_patterns := ∅;
     ethical_metrics := mkMetrics 0 0 0 0 0;
     governance_active := false;
     strictness_level := (7 # 10)%Q;
     learning_mode := true;
     action_interceptors := ∅ |}.

(** [__init__]: the attributes, then [self._setup_core_interceptors()].  The
    result is the initialised object, or the exception that leaves the
    caller without one. *)
Definition __init__ (ns : Namespace) (philosophy : gmap string (list string))
  : Result Governor :=
  _setup_core_interceptors ns (init_attributes philosophy).

(** ** The rule evaluators *)

Declare Scope res_scope.
Delimit Scope res_scope with res.
Notation "x <- c ;; k" := (result_bind c (λ x, k))
  (at level 100, c at next level, right associativity) : res_scope.

(** [_check_violations]: three independent rules, each appending its
    principle.  It reads the context only; a truth test may raise. *)
Definition _check_violations (action : string) (c : EthicalContext)
  : Result (list string) :=
  (let violations := [] in
   (* if context.sensitive_data_involved and not context.user_consent *)
   sensitive <- truthy (ctx_sensitive_data_involved c);;
   privacy <- (if sensitive
               then (consent <- truthy (ctx_user_consent c);; Ok (negb consent))
               else Ok false);;
   let violations := if privacy then violations ++ ["privacy"] else violations in
   (* if context.system_modification and context.scope == "global" *)
   modification <- truthy (ctx_system_modification c);;
   let security := modification && eq_str (ctx_scope c) "global" in
   let violations := if security then violations ++ ["security"] else violations in
   (* if not context.user_visible and context.persistent *)
   visible <- truthy (ctx_user_visible c);;
   autonomy <- (if negb visible then truthy (ctx_persistent c) else Ok false);;
   let violations := if autonomy then violations ++ ["autonomy"] else violations in
   Ok violations)%res.

(** [_check_concerns]: two independent rules. *)
Definition _check_concerns (action : string) (c : EthicalContext)
  : Result (list string) :=
  (let concerns := [] in
   (* if not context.user_visible and
         action_type not in ["system_monitor", "background_task"] *)
   visible <- truthy (ctx_user_visible c);;
   let transparency :=
     negb visible &&
     negb (existsb (String.eqb action) ["system_monitor"; "background_task"]) in
   let concerns := if transparency then concerns ++ ["transparency"] else concerns in
   (* if not context.reversible and context.scope in ["system", "global"] *)
   reversible <- truthy (ctx_reversible c);;
   let safety := negb reversible && in_strs (ctx_scope c) ["system"; "global"] in
   let concerns := if safety then concerns ++ ["safety"] else concerns in
   Ok concerns)%res.

(** A call of one of the governor's own methods: the call is noted, then
    the method runs. *)
Definition call {A} (method : string) (r : Result A) : M A :=
  log (Call method);; lift_result r.

(** [if l:] for a list. *)
Definition nonempty {A} (l : list A) : bool :=
  match l with [] => false | _ => true end.

(** [_evaluate_action], the general evaluation. *)
Definition _evaluate_action (X : Externals) (action : string)
  (c : EthicalContext) : M EthicalDecision :=
  t0 <- time X;;
  let decision_id : string :=
    ("decision_" ++ str_of_int (int_of_float t0) ++ "_" ++
     str_of_int (hash X action `mod` 10000)%Z)%string in
  violations <- call "_check_violations" (_check_violations action c);;
  if nonempty violations then
    t <- time X;;
    ret {| decision_id := decision_id; timestamp := t;
           action_type := action; actor := ctx_actor c; context := c;
           decision := BLOCK; severity := VIOLATION;
           affected_principles := violations;
           reasoning := "Ethical violations detected: " ++ join ", " violations;
           confidence := (95 # 100)%Q;
           restrictions := []; monitoring_requirements := [];
           escalation_reason := None |}
  else
    concerns <- call "_check_concerns" (_check_concerns action c);;
    if nonempty concerns then
      t <- time X;;
      ret {| decision_id := decision_id; timestamp := t;
             action_type := action; actor := ctx_actor c; context := c;
             decision := MONITOR; severity := CONCERN;
             affected_principles := concerns;
             reasoning := "Ethical concerns identified: " ++ join ", " concerns;
             confidence := (85 # 100)%Q;
             restrictions := [];
             monitoring_requirements := ["increased_logging"; "user_notification"];
             escalation_reason := None |}
    else
      t <- time X;;
      ret {| decision_id := decision_id; timestamp := t;
             action_type := action; actor := ctx_actor c; context := c;
             decision := ALLOW; severity := INFO;
             affected_principles := [];
             reasoning := "No ethical concerns identified";
             confidence := (90 # 100)%Q;
             restrictions := []; monitoring_requirements := [];
             escalation_reason := None |}.

(** ** [review_decision] *)

(** [context.get(key, fallback)] on a dict. *)
Definition dict_get (m : gmap string PyVal) (key : string) (fallback : PyVal)
  : PyVal :=
  default fallback (m !! key).

(** What a caller may pass as [context]: a dict; a value that is not a
    mapping ([None], a number, a string, a list: what a JSON body may hold),
    which has no attribute [get]; or an object with a [get] of its own, which
    returns or raises, and answers a key the same way each time it is
    asked. *)
Inductive ContextArg :=
| ADict (m : gmap string PyVal)
| AValue (v : PyVal)
| AObject (get : string → PyVal → Result PyVal).

(** [type(v).__name__]; an object of a class of the caller's is taken to
    carry the name [object]. *)
Definition type_name (v : PyVal) : string :=
  match v with
  | VNone => "NoneType"
  | VBool _ => "bool"
  | VInt _ => "int"
  | VFloat _ => "float"
  | VStr _ => "str"
  | VList _ => "list"
  | VObj _ => "object"
  end.

Definition no_attribute (v : PyVal) (name : string) : Exception :=
  {| exc_class := "AttributeError";
     exc_msg := "'" ++ type_name v ++ "' object has no attribute '" ++
                name ++ "'" |}.

(** [context.get(key, fallback)] on what was passed. *)
Definition arg_get (a : ContextArg) (key : string) (fallback : PyVal)
  : Result PyVal :=
  match a with
  | ADict m => Ok (dict_get m key fallback)
  | AValue v => Raise (no_attribute v "get")
  | AObject get => get key fallback
  end.

(** The keyword arguments of [EthicalContext(...)], evaluated in their
    order; the first [get] that raises ends the construction. *)
Definition review_context (action : string) (a : ContextArg)
  (metadata : option (gmap string PyVal)) : Result EthicalContext :=
  (persona <- arg_get a "persona" (VStr "unknown");;
   target <- arg_get a "target" VNone;;
   scope <- arg_get a "scope" (VStr "local");;
   user_consent <- arg_get a "user_consent" VNone;;
   reversible <- arg_get a "reversible" (VBool true);;
   persistent <- arg_get a "persistent" (VBool false);;
   sensitive_data <- arg_get a "sensitive_data" (VBool false);;
   system_modification <- arg_get a "system_modification" (VBool false);;
   user_visible <- arg_get a "user_visible" (VBool true);;
   Ok {| ctx_action_type := action;
         ctx_actor := persona;
         ctx_target := target;
         ctx_scope := scope;
         ctx_user_consent := user_consent;
         ctx_reversible := reversible;
         ctx_persistent := persistent;
         ctx_sensitive_data_involved := sensitive_data;
         ctx_system_modification := system_modification;
         ctx_user_visible := user_visible;
         ctx_metadata := default ∅ metadata |})%res.

(** The context built from a dict, where every [get] returns
    ([review_context_dict]). *)
Definition dict_context (action : string) (m : gmap string PyVal)
  (metadata : option (gmap string PyVal)) : EthicalContext :=
  match review_context action (ADict m) metadata with
  | Ok c => c
  | Raise _ => default_context action (VStr "unknown")
  end.

(** The body of the [try]. *)
Definition review_try (X : Externals) (action : string) (a : ContextArg)
  (metadata : option (gmap string PyVal)) : M EthicalDecision :=
  ethical_context <- lift_result (review_context action a metadata);;
  log (Call "_evaluate_action");;
  d <- _evaluate_action X action ethical_context;;
  perceive X
    {| ev_type := action;
       ev_data := [("decision", VStr (decision_value (decision d)));
                   ("severity", VStr (severity_value (severity d)));
                   ("reasoning", VStr (reasoning d));
                   ("actor", ctx_actor ethical_context)];
       ev_weight := severity_value (severity d) |};;
  ret d.

(** The body of the [except Exception as e]: the keyword arguments of
    [EthicalDecision(...)] in their order, [context.get("persona", ...)]
    among them; no [try] encloses it. *)
Definition review_except (X : Externals) (action : string)
  (a : ContextArg) (e : Exception) : M EthicalDecision :=
  t0 <- time X;;
  t <- time X;;
  persona <- lift_result (arg_get a "persona" (VStr "unknown"));;
  ret {| decision_id := "error_" ++ str_of_int (int_of_float t0);
         timestamp := t;
         action_type := action;
         actor := persona;
         context := default_context action (VStr "error");
         decision := BLOCK; severity := CRITICAL;
         affected_principles := ["system_integrity"];
         reasoning := "Ethical review failed: " ++ exc_str e;
         confidence := 1%Q;
         restrictions := []; monitoring_requirements := [];
         escalation_reason := Some "review_system_error" |}.

(** [review_decision(action_type, context, metadata)]. *)
Definition review_decision (X : Externals) (action : string)
  (a : ContextArg) (metadata : option (gmap string PyVal))
  : M EthicalDecision :=
  try_except (review_try X action a metadata) (review_except X action a).

(** ** [activate_governance] and [evaluate_action] *)

Definition activate_governance (X : Externals) : M unit :=
  modify_gov (set_governance_active true);;
  now <- time X;;
  g <- get_gov;;
  perceive X
    {| ev_type := "governance_activation";
       ev_data := [("timestamp", VStr (isoformat X now));
                   ("strictness_level", VFloat (strictness_level g));
                   ("active_principles",
                    VInt (Z.of_nat (size (principle_weights g))));
                   ("learning_mode", VBool (learning_mode g))];
       ev_weight := "high" |}.

(** Calling what [action_interceptors] holds.  A bound method is looked up
    in the namespace it was taken from. *)
Definition call_interceptor (X : Externals) (ns : Namespace) (f : Callable)
  (who : string) (data : gmap string PyVal) (c : EthicalContext)
  (id : string) : M EthicalDecision :=
  match f with
  | BoundMethod name =>
      call_missing name
        ((λ i : Interceptor, i who data c id) <$> ns_interceptor ns name)
  | Function n => lift_method (function_object X n who data c id)
  end.

(** The counters [evaluate_action] moves for a decision. *)
Definition count_decision (d : EthicalDecisionType) (m : Metrics) : Metrics :=
  let m1 := mkMetrics (total_decisions m + 1) (violations_prevented m)
              (restrictions_imposed m) (escalations_required m)
              (learning_adjustments m) in
  match d with
  | BLOCK => mkMetrics (total_decisions m1) (violations_prevented m1 + 1)
               (restrictions_imposed m1) (escalations_required m1)
               (learning_adjustments m1)
  | RESTRICT => mkMetrics (total_decisions m1) (violations_prevented m1)
               (restrictions_imposed m1 + 1) (escalations_required m1)
               (learning_adjustments m1)
  | ESCALATE => mkMetrics (total_decisions m1) (violations_prevented m1)
               (restrictions_imposed m1) (escalations_required m1 + 1)
               (learning_adjustments m1)
  | _ => m1
  end.

(** The inactive branch: "If governance is not active, allow but log". *)
Definition evaluate_inactive (X : Externals) (ns : Namespace)
  (action who : string) (c : option EthicalContext) : M EthicalDecision :=
  id <- call_missing "_generate_decision_id"
          ((λ f, f action who) <$> ns_generate_decision_id ns);;
  t <- time X;;
  ret {| decision_id := id; timestamp := t;
         action_type := action; actor := VStr who;
         context := default (default_context action (VStr who)) c;
         decision := ALLOW; severity := INFO;
         affected_principles := [];
         reasoning := "Ethical governance not active";
         confidence := 1%Q;
         restrictions := []; monitoring_requirements := [];
         escalation_reason := None |}.

(** The first part of the locked block: the decision id, the context, and
    the decision of the registered interceptor or of the general
    evaluation. *)
Definition decide_action (X : Externals) (ns : Namespace)
  (action who : string) (data : gmap string PyVal)
  (c : option EthicalContext) : M EthicalDecision :=
  id <- call_missing "_generate_decision_id"
          ((λ f, f action who) <$> ns_generate_decision_id ns);;
  (* Create context if not provided *)
  c <- match c with
       | Some c => ret c
       | None => call_missing "_infer_context"
                   ((λ f, f action who data) <$> ns_infer_context ns)
       end;;
  (* Check for specific interceptor *)
  g <- get_gov;;
  match action_interceptors g !! action with
  | Some f =>
      log (Dispatch action f);;
      call_interceptor X ns f who data c id
  | None =>
      call_missing "_general_ethical_evaluation"
        ((λ f, f action who data c id) <$> ns_general_ethical_evaluation ns)
  end.

(** "Store decision" and "Update metrics based on decision". *)
Definition store_decision (d : EthicalDecision) : M unit :=
  modify_gov (λ g, set_decision_history
                     (deque_append history_maxlen (decision_history g) d) g);;
  log (Append d);;
  modify_gov (λ g, set_ethical_metrics
                     (count_decision (decision d) (ethical_metrics g)) g).

(** The event [evaluate_action] hands to the sink for a decision. *)
Definition decision_event (d : EthicalDecision) : Event :=
  {| ev_type := action_type d;
     ev_data := [("decision", VStr (decision_value (decision d)));
                 ("severity", VStr (severity_value (severity d)));
                 ("actor", actor d);
                 ("reasoning", VStr (reasoning d));
                 ("confidence", VFloat (confidence d));
                 ("affected_principles",
                  VList (VStr <$> affected_principles d))];
     ev_weight := severity_value (severity d) |}.

(** "Learn from decision if in learning mode". *)
Definition learn_if_enabled (ns : Namespace) (d : EthicalDecision) : M unit :=
  g <- get_gov;;
  if learning_mode g
  then call_missing "_learn_from_decision"
         ((λ f, f d) <$> ns_learn_from_decision ns)
  else ret tt.

Definition evaluate_action (X : Externals) (ns : Namespace)
  (action who : string) (data : gmap string PyVal)
  (c : option EthicalContext) : M EthicalDecision :=
  g <- get_gov;;
  if negb (governance_active g) then
    evaluate_inactive X ns action who c
  else
    d <- decide_action X ns action who data c;;
    store_decision d;;
    perceive X (decision_event d);;
    learn_if_enabled ns d;;
    ret d.

(** ** Clients of the governor *)

(** What a caller can ask of a governor object. *)
Inductive Request :=
| Evaluate (action who : string) (data : gmap string PyVal)
           (c : option EthicalContext)
| Review (action : string) (m : gmap string PyVal)
         (metadata : option (gmap string PyVal))
| Activate
| Register (action : string) (n : nat).

(** One request; the caller goes on whether it got a value or an
    exception. *)
Definition serve (X : Externals) (ns : Namespace) (r : Request) (w : World)
  : World :=
  match r with
  | Evaluate action who data c => (evaluate_action X ns action who data c w).2
  | Review action m metadata =>
      (review_decision X action (ADict m) metadata w).2
  | Activate => (activate_governance X w).2
  | Register action n =>
      (modify_gov (register_interceptor action (Function n)) w).2
  end.

Definition run (X : Externals) (ns : Namespace) (rs : list Request)
  (w : World) : World :=
  foldl (λ w r, serve X ns r w) w rs.

(** The decisions stored so far, oldest first. *)
Definition recorded (w : World) : list EthicalDecision :=
  omap (λ s, match s with Append d => Some d | _ => None end) (steps (env w)).

(** The last [n] items of a list. *)
Definition last_n {A} (n : Z) (l : list A) : list A :=
  drop (length l - Z.to_nat n) l.

(** The history is what a bounded first-in first-out queue keeps of the
    decisions stored. *)
Definition history_invariant (w : World) : Prop :=
  decision_history (gov w) = last_n history_maxlen (recorded w).

(** A computation that keeps the history invariant. *)
Definition keeps_invariant {A} (c : M A) : Prop :=
  ∀ w, history_invariant w → history_invariant (c w).2.

(** ** What is asked of the methods that are not in the module *)

Definition returns {A} (f : Method A) : Prop :=
  ∀ g, ∃ a g', f g = (Ok a, g').

Definition keeps_history {A} (f : Method A) : Prop :=
  ∀ g, decision_history (f g).2 = decision_history g.

Definition keeps_metrics {A} (f : Method A) : Prop :=
  ∀ g, ethical_metrics (f g).2 = ethical_metrics g.

(** None of the missing methods, and none of the registered function
    objects, writes to [decision_history]. *)
Record methods_keep_history (X : Externals) (ns : Namespace) : Prop := {
  kh_generate : ∀ f a b,
    ns_generate_decision_id ns = Some f → keeps_history (f a b);
  kh_infer : ∀ f a b d,
    ns_infer_context ns = Some f → keeps_history (f a b d);
  kh_general : ∀ f a b d c i,
    ns_general_ethical_evaluation ns = Some f → keeps_history (f a b d c i);
  kh_learn : ∀ f d,
    ns_learn_from_decision ns = Some f → keeps_history (f d);
  kh_interceptor : ∀ name f a d c i,
    ns_interceptor ns name = Some f → keeps_history (f a d c i);
  kh_function : ∀ n a d c i, keeps_history (function_object X n a d c i)
}.

(** The rules of [_check_violations] other than the privacy rule, on a
    context that holds what its annotations announce. *)
Definition security_rule_fires (c : EthicalContext) : Prop :=
  ctx_system_modification c = VBool true ∧ ctx_scope c = VStr "global".

Definition autonomy_rule_fires (c : EthicalContext) : Prop :=
  ctx_user_visible c = VBool false ∧ ctx_persistent c = VBool true.

(** ** Concrete surroundings and inputs *)

(** The decision a sample registered function returns for any action. *)
Definition sample_decision (who : string) (c : EthicalContext) (id : string)
  : EthicalDecision :=
  {| decision_id := id; timestamp := 0%Q;
     action_type := ctx_action_type c; actor := VStr who; context := c;
     decision := ALLOW; severity := INFO; affected_principles := [];
     reasoning := "approved by the registered evaluator";
     confidence := 1%Q;
     restrictions := []; monitoring_requirements := [];
     escalation_reason := None |}.

(** A process whose sink accepts every event. *)
Definition quiet : Externals :=
  {| hash := λ _, 424242%Z;
     time_time := λ n, (1700000000 + Z.of_nat n # 1)%Q;
     isoformat := λ _, "2023-11-14T22:13:20+00:00";
     perceive_ethical_decision := λ _ _, None;
     function_object := λ _ who _ c id g, (Ok (sample_decision who c id), g) |}.

(** The same process with a sink that raises on every event. *)
Definition sink_down : Externals :=
  {| hash := hash quiet;
     time_time := time_time quiet;
     isoformat := isoformat quiet;
     perceive_ethical_decision :=
       λ _ _, Some (mkException "RuntimeError" "awareness sink unavailable");
     function_object := function_object quiet |}.

(** A subclass that adds [_generate_decision_id] and nothing else. *)
Definition with_decision_id : Namespace :=
  {| ns_generate_decision_id :=
       Some (λ action who g,
               (Ok ("ethical_" ++ action ++ "_" ++ who)%string, g));
     ns_infer_context := None;
     ns_general_ethical_evaluation := None;
     ns_learn_from_decision := None;
     ns_interceptor := λ _, None |}.

(** An object on which none of these methods is bound. *)
Definition nothing_bound : Namespace :=
  {| ns_generate_decision_id := None;
     ns_infer_context := None;
     ns_general_ethical_evaluation := None;
     ns_learn_from_decision := None;
     ns_interceptor := λ _, None |}.

(** The object as [__init__] leaves it before the interceptors are set up,
    in a process that has done nothing yet. *)
Definition inactive_world : World :=
  {| gov := init_attributes ∅; env := mkEnv 0 [] [] |}.

(** The same after [activate_governance], with learning off and a function
    registered for ["custom_action"]. *)
Definition active_world : World :=
  {| gov := register_interceptor "custom_action" (Function 0)
              (mkGovernor ∅ [] [] [] [] ∅ [] (_initialize_principle_weights [])
                 ∅ (mkMetrics 0 0 0 0 0) true (7 # 10)%Q false ∅);
     env := mkEnv 0 [] [] |}.

(** A registered evaluator that numbers its decisions with the count of
    decisions made before. *)
Definition numbering : Externals :=
  {| hash := hash quiet;
     time_time := time_time quiet;
     isoformat := isoformat quiet;
     perceive_ethical_decision := perceive_ethical_decision quiet;
     function_object := λ _ who _ c _ g,
       (Ok (sample_decision who c
              (str_of_int (total_decisions (ethical_metrics g)))), g) |}.

(** A client that activates the governor, registers an evaluator and has
    [n] actions evaluated. *)
Definition busy_client (n : nat) : list Request :=
  Activate :: Register "custom_action" 0 ::
  replicate n (Evaluate "custom_action" "agent" ∅
                 (Some (default_context "custom_action" (VStr "agent")))).

(** Sensitive data without consent, nothing else set. *)
Definition sensitive_unconsented : gmap string PyVal :=
  {[ "sensitive_data" := VBool true; "user_consent" := VBool false ]}.

Definition sensitive_context : EthicalContext :=
  dict_context "data_access" sensitive_unconsented None.

(** Sensitive data without consent in an action the user does not see: the
    privacy rule and the transparency rule both apply. *)
Definition hidden_sensitive : gmap string PyVal :=
  {[ "sensitive_data" := VBool true; "user_visible" := VBool false ]}.

Definition hidden_sensitive_context : EthicalContext :=
  dict_context "data_access" hidden_sensitive None.

(** A mapping whose [get] raises, whatever the key: a view on a store that
    is not there. *)
Definition unreadable_mapping : ContextArg :=
  AObject (λ _ _, Raise (mkException "RuntimeError"
                           "context store unavailable")).

(** A mapping whose ["sensitive_data"] value raises on its truth test. *)
Definition ambiguous_truth : gmap string PyVal :=
  {[ "sensitive_data" :=
       VObj (Raise (mkException "ValueError" "truth value is ambiguous")) ]}.

(** ** The rules, as conditions on a context *)

(** The conditions of the five rules of [_check_violations] and
    [_check_concerns], for a context that holds what its annotations
    announce ([security_rule_fires] and [autonomy_rule_fires] are above). *)
Definition privacy_rule_fires (c : EthicalContext) : Prop :=
  ctx_sensitive_data_involved c = VBool true ∧ ctx_user_consent c ≠ VBool true.

Definition transparency_rule_fires (action : string) (c : EthicalContext)
  : Prop :=
  ctx_user_visible c = VBool false ∧
  action ≠ "system_monitor" ∧ action ≠ "background_task".

Definition safety_rule_fires (c : EthicalContext) : Prop :=
  ctx_reversible c = VBool false ∧
  (ctx_scope c = VStr "system" ∨ ctx_scope c = VStr "global").

(** An action the user does not see, nothing else set. *)
Definition hidden_context : EthicalContext :=
  dict_context "user_interact" {[ "user_visible" := VBool false ]} None.

(** A modification of the system with global scope. *)
Definition global_modification_context : EthicalContext :=
  dict_context "system_modify"
    {[ "system_modification" := VBool true; "scope" := VStr "global" ]} None.

(** ** The keys [review_decision] reads *)

Definition review_keys : list string :=
  ["persona"; "target"; "scope"; "user_consent"; "reversible"; "persistent";
   "sensitive_data"; "system_modification"; "user_visible"].

(** A mapping that uses the names of the [EthicalContext] fields instead of
    the keys [review_decision] reads. *)
Definition field_named : gmap string PyVal :=
  {[ "actor" := VStr "kai"; "sensitive_data_involved" := VBool true;
     "consent" := VBool false ]}.

(** A process whose clock is read every tenth of a second. *)
Definition subsecond : Externals :=
  {| hash := hash quiet;
     time_time := λ n, (17000000000 + Z.of_nat n # 10)%Q;
     isoformat := isoformat quiet;
     perceive_ethical_decision := perceive_ethical_decision quiet;
     function_object := function_object quiet |}.

(** The world of a process that has read the clock once. *)
Definition later_world : World :=
  {| gov := gov inactive_world; env := mkEnv 1 [] [] |}.

(** ** Attributes of the governor along a run *)

(** A method that leaves an attribute of the governor as it was. *)
Definition method_keeps {T A} (attr : Governor → T) (f : Method A) : Prop :=
  ∀ g, attr (f g).2 = attr g.

(** None of the methods that are not in the module, and none of the
    registered function objects, writes to the attribute. *)
Record methods_keep {T} (attr : Governor → T) (X : Externals)
  (ns : Namespace) : Prop := {
  mk_generate : ∀ f a b,
    ns_generate_decision_id ns = Some f → method_keeps attr (f a b);
  mk_infer : ∀ f a b d,
    ns_infer_context ns = Some f → method_keeps attr (f a b d);
  mk_general : ∀ f a b d c i,
    ns_general_ethical_evaluation ns = Some f →
    method_keeps attr (f a b d c i);
  mk_learn : ∀ f d,
    ns_learn_from_decision ns = Some f → method_keeps attr (f d);
  mk_interceptor : ∀ name f a d c i,
    ns_interceptor ns name = Some f → method_keeps attr (f a d c i);
  mk_function : ∀ n a d c i, method_keeps attr (function_object X n a d c i)
}.

(** A relation between an attribute and the decisions stored so far. *)
Definition attribute_holds {T} (attr : Governor → T)
  (P : T → list EthicalDecision → Prop) (w : World) : Prop :=
  P (attr (gov w)) (recorded w).

Definition computation_keeps {T A} (attr : Governor → T)
  (P : T → list EthicalDecision → Prop) (c : M A) : Prop :=
  ∀ w, attribute_holds attr P w → attribute_holds attr P (c w).2.

(** The counters that [evaluate_action] would have reached from zero for a
    list of stored decisions. *)
Definition tally (ds : list EthicalDecision) : Metrics :=
  foldl (λ m d, count_decision (decision d) m) (mkMetrics 0 0 0 0 0) ds.

(** The number of decisions of one kind in a list. *)
Definition count_kind (k : EthicalDecisionType) (ds : list EthicalDecision)
  : Z :=
  Z.of_nat (length (filter (λ d, decision d = k) ds)).

(** The same namespace with another [_general_ethical_evaluation], or
    none. *)
Definition with_general
  (general : option (string → string → gmap string PyVal → EthicalContext →
                     string → Method EthicalDecision))
  (ns : Namespace) : Namespace :=
  {| ns_generate_decision_id := ns_generate_decision_id ns;
     ns_infer_context := ns_infer_context ns;
     ns_general_ethical_evaluation := general;
     ns_learn_from_decision := ns_learn_from_decision ns;
     ns_interceptor := ns_interceptor ns |}.

(** The requests that go through [evaluate_action] and
    [register_interceptor] only. *)
Definition evaluates_or_registers (r : Request) : Prop :=
  match r with
  | Evaluate _ _ _ _ | Register _ _ => True
  | _ => False
  end.

(** The action types and the methods of [_setup_core_interceptors], in its
    order. *)
Definition core_interceptors : list (string * string) :=
  [("data_access", "_evaluate_data_access");
   ("system_modify", "_evaluate_system_modification");
   ("user_interact", "_evaluate_user_interaction");
   ("ai_decision", "_evaluate_ai_decision");
   ("network_communicate", "_evaluate_network_communication")].

(** A subclass that binds every missing method: ids from the action and the
    actor, the default context, and the sample decision from every
    evaluator. *)
Definition complete_namespace : Namespace :=
  {| ns_generate_decision_id :=
       Some (λ action who g,
               (Ok ("ethical_" ++ action ++ "_" ++ who)%string, g));
     ns_infer_context :=
       Some (λ action who _ g, (Ok (default_context action (VStr who)), g));
     ns_general_ethical_evaluation :=
       Some (λ _ who _ c id g, (Ok (sample_decision who c id), g));
     ns_learn_from_decision := Some (λ _ g, (Ok tt, g));
     ns_interceptor :=
       λ _, Some (λ who _ c id g, (Ok (sample_decision who c id), g)) |}.

(** A process whose registered evaluators raise. *)
Definition faulty : Externals :=
  {| hash := hash quiet;
     time_time := time_time quiet;
     isoformat := isoformat quiet;
     perceive_ethical_decision := perceive_ethical_decision quiet;
     function_object :=
       λ _ _ _ _ _ g, (Raise (mkException "ValueError" "bad action data"), g) |}.

(** A computation that reads no clock, hands nothing to the sink and stores
    no decision. *)
Definition leaves_env {A} (c : M A) : Prop :=
  ∀ w, clock (env (c w).2) = clock (env w) ∧
       emitted (env (c w).2) = emitted (env w) ∧
       recorded (c w).2 = recorded w.

(** ** [EthicalDecision.to_dict] *)

(** What the dict of [to_dict] holds under a key: a plain value, copied;
    a dict of plain values (the [metadata]); the dict made of a nested
    dataclass; or a member of one of the two enumerations, which [asdict]
    copies as it is. *)
Inductive Item :=
| IVal (v : PyVal)
| IMap (m : gmap string PyVal)
| IRecord (fields : list (string * Item))
| IDecisionType (k : EthicalDecisionType)
| ISeverity (s : EthicalSeverity).

Definition option_str (o : option string) : PyVal :=
  match o with
  | None => VNone
  | Some s => VStr s
  end.

Definition strs (l : list string) : PyVal := VList (VStr <$> l).

(** The first exception among the results of [f] on a list, in its order. *)
Definition first_failure {A} (f : A → option Exception)
  : list A → option Exception :=
  fix go l :=
    match l with
    | [] => None
    | x :: r => match f x with
                | Some e => Some e
                | None => go r
                end
    end.

(** What the copying of a value raises, if anything.  [asdict] copies what
    it finds in a field: numbers, strings, booleans and [None] as they are,
    a list item by item, and any other object with [copy.deepcopy], which
    raises on an object that cannot be copied (a lock, an open file, a
    generator); [deepcopy_error] says what it raises on an object. *)
Fixpoint copy_failure (deepcopy_error : PyVal → option Exception)
  (v : PyVal) : option Exception :=
  match v with
  | VList l => first_failure (copy_failure deepcopy_error) l
  | VObj _ => deepcopy_error v
  | _ => None
  end.

(** [_asdict_inner] on the value of a field: the copy, which as a value is
    the original, or the exception. *)
Definition asdict_inner (deepcopy_error : PyVal → option Exception)
  (v : PyVal) : Result PyVal :=
  match copy_failure deepcopy_error v with
  | Some e => Raise e
  | None => Ok v
  end.

(** [_asdict_inner] on a dict: its values are copied one by one.  The map
    of the model does not keep the order of insertion: of several values
    that cannot be copied, the exception is that of the first in the
    order of [map_to_list]. *)
Definition asdict_dict (deepcopy_error : PyVal → option Exception)
  (m : gmap string PyVal) : Result (gmap string PyVal) :=
  match first_failure (copy_failure deepcopy_error) (map_to_list m).*2 with
  | Some e => Raise e
  | None => Ok m
  end.

(** [asdict] on the context: its fields, in their order. *)
Definition asdict_context (deepcopy_error : PyVal → option Exception)
  (c : EthicalContext) : Result (list (string * Item)) :=
  (who <- asdict_inner deepcopy_error (ctx_actor c);;
   target <- asdict_inner deepcopy_error (ctx_target c);;
   scope <- asdict_inner deepcopy_error (ctx_scope c);;
   user_consent <- asdict_inner deepcopy_error (ctx_user_consent c);;
   reversible <- asdict_inner deepcopy_error (ctx_reversible c);;
   persistent <- asdict_inner deepcopy_error (ctx_persistent c);;
   sensitive <- asdict_inner deepcopy_error (ctx_sensitive_data_involved c);;
   modification <- asdict_inner deepcopy_error (ctx_system_modification c);;
   user_visible <- asdict_inner deepcopy_error (ctx_user_visible c);;
   metadata <- asdict_dict deepcopy_error (ctx_metadata c);;
   Ok [("action_type", IVal (VStr (ctx_action_type c)));
       ("actor", IVal who);
       ("target", IVal target);
       ("scope", IVal scope);
       ("user_consent", IVal user_consent);
       ("reversible", IVal reversible);
       ("persistent", IVal persistent);
       ("sensitive_data_involved", IVal sensitive);
       ("system_modification", IVal modification);
       ("user_visible", IVal user_visible);
       ("metadata", IMap metadata)])%res.

(** [asdict(self)] on a decision: its fields, in their order, the context
    as a nested dict.  The fields the model types as strings, numbers,
    lists of strings and members of an enumeration are copied as they
    are. *)
Definition asdict (deepcopy_error : PyVal → option Exception)
  (d : EthicalDecision) : Result (list (string * Item)) :=
  (who <- asdict_inner deepcopy_error (actor d);;
   ctx <- asdict_context deepcopy_error (context d);;
   Ok [("decision_id", IVal (VStr (decision_id d)));
       ("timestamp", IVal (VFloat (timestamp d)));
       ("action_type", IVal (VStr (action_type d)));
       ("actor", IVal who);
       ("context", IRecord ctx);
       ("decision", IDecisionType (decision d));
       ("severity", ISeverity (severity d));
       ("affected_principles", IVal (strs (affected_principles d)));
       ("reasoning", IVal (VStr (reasoning d)));
       ("confidence", IVal (VFloat (confidence d)));
       ("restrictions", IVal (strs (restrictions d)));
       ("monitoring_requirements", IVal (strs (monitoring_requirements d)));
       ("escalation_reason", IVal (option_str (escalation_reason d)))])%res.

(** The values [asdict] hands to the copy, in the order of the fields. *)
Definition copied_values (d : EthicalDecision) : list PyVal :=
  let c := context d in
  [actor d; ctx_actor c; ctx_target c; ctx_scope c; ctx_user_consent c;
   ctx_reversible c; ctx_persistent c; ctx_sensitive_data_involved c;
   ctx_system_modification c; ctx_user_visible c] ++
  (map_to_list (ctx_metadata c)).*2.

(** Every value of the decision can be copied. *)
Definition copyable (deepcopy_error : PyVal → option Exception)
  (d : EthicalDecision) : Prop :=
  Forall (λ v, copy_failure deepcopy_error v = None) (copied_values d).

(** [result[key] = v] on a dict that keeps the order of insertion: the value
    of a key that is there is replaced in place, a new key goes last. *)
Fixpoint dict_set (key : string) (v : Item) (l : list (string * Item))
  : list (string * Item) :=
  match l with
  | [] => [(key, v)]
  | (k, x) :: r =>
      if String.eqb k key then (k, v) :: r else (k, x) :: dict_set key v r
  end.

(** [result[key]] when the key is there. *)
Fixpoint dict_lookup (key : string) (l : list (string * Item)) : option Item :=
  match l with
  | [] => None
  | (k, x) :: r => if String.eqb k key then Some x else dict_lookup key r
  end.

(** [to_dict], given what [copy.deepcopy] raises on an object and what
    [datetime.fromtimestamp(t, tz=timezone.utc).isoformat()] gives for a
    timestamp: a string, or an exception for a timestamp out of range. *)
Definition to_dict (deepcopy_error : PyVal → option Exception)
  (utc_isoformat : Q → Result string) (d : EthicalDecision)
  : Result (list (string * Item)) :=
  (result <- asdict deepcopy_error d;;
   let result :=
     dict_set "decision" (IVal (VStr (decision_value (decision d)))) result in
   let result :=
     dict_set "severity" (IVal (VStr (severity_value (severity d)))) result in
   iso <- utc_isoformat (timestamp d);;
   Ok (dict_set "datetime" (IVal (VStr iso)) result))%res.

(** Every object can be copied. *)
Definition copies_all : PyVal → option Exception := λ _, None.

(** A lock cannot. *)
Definition a_lock : PyVal := VObj (Ok true).

Definition no_locks : PyVal → option Exception :=
  λ _, Some (mkException "TypeError" "cannot pickle '_thread.lock' object").

(** A decision on a context whose target is a lock. *)
Definition decision_on_a_lock : EthicalDecision :=
  sample_decision "agent"
    (dict_context "data_access" {[ "target" := a_lock ]} None) "id-2".

(** An item that is a member of an enumeration. *)
Definition is_enum_member (i : Item) : Prop :=
  match i with
  | IDecisionType _ | ISeverity _ => True
  | _ => False
  end.


(** * Properties *)

(** ** Small runs *)

Example review_sensitive_blocks :
  (review_decision quiet "data_access" (ADict sensitive_unconsented) None
     inactive_world).1
  = Ok {| decision_id := "decision_1700000000_4242";
          timestamp := (1700000001 # 1)%Q;
          action_type := "data_access"; actor := VStr "unknown";
          context := sensitive_context;
          decision := BLOCK; severity := VIOLATION;
          affected_principles := ["privacy"];
          reasoning := "Ethical violations detected: privacy";
          confidence := (95 # 100)%Q;
          restrictions := []; monitoring_requirements := [];
          escalation_reason := None |}.
Proof. vm_compute. reflexivity. Qed.

(** ** The principle weight table *)

Lemma fill_default_lookup (l : list (string * Q)) (m : gmap string Q) k :
  foldl fill_default m l !! k =
  match m !! k with
  | Some v => Some v
  | None => (list_to_map l : gmap string Q) !! k
  end.
Proof.
  revert m. induction l as [|[p x] l IH]; intros m; simpl.
  - destruct (m !! k); [done | by rewrite lookup_empty].
  - rewrite IH. unfold fill_default; simpl.
    destruct (decide (p = k)) as [->|Hne].
    + rewrite lookup_insert_eq.
      destruct (m !! k) eqn:Hk; [by rewrite Hk | by rewrite lookup_insert_eq].
    + rewrite (lookup_insert_ne _ p k) by done.
      destruct (m !! p); [done | by rewrite lookup_insert_ne].
Qed.

(** Whatever the loop over the foundation sets agrees with the default
    table: the seed weights are the default weights. *)
Lemma seed_weight_within_defaults (m : gmap string Q) (statement : string) :
  m ⊆ list_to_map default_weights →
  seed_weight m statement ⊆ list_to_map default_weights.
Proof.
  intros Hm. unfold seed_weight.
  repeat case_match; try done;
    (apply insert_subseteq_l; [vm_compute; reflexivity | done]).
Qed.

Lemma seeds_within_defaults (foundation : list string) (m : gmap string Q) :
  m ⊆ list_to_map default_weights →
  foldl seed_weight m foundation ⊆ list_to_map default_weights.
Proof.
  revert m. induction foundation as [|s l IH]; intros m Hm; simpl; [done|].
  apply IH, seed_weight_within_defaults, Hm.
Qed.

(** The table [_initialize_principle_weights] returns is the default table,
    whatever the foundation says. *)
Lemma initialize_principle_weights_defaults (foundation : list string) :
  _initialize_principle_weights foundation = list_to_map default_weights.
Proof.
  apply map_eq; intros k. unfold _initialize_principle_weights.
  rewrite fill_default_lookup.
  pose proof (seeds_within_defaults foundation ∅ (map_empty_subseteq _)) as Hs.
  destruct (foldl seed_weight ∅ foundation !! k) eqn:Hk; [|done].
  symmetry. eapply lookup_weaken; eauto.
Qed.

(** C9. For every foundation list of strings, [_initialize_principle_weights]
    returns a mapping whose keys are exactly the nine principles; each
    principle that has a seed weight and whose name occurs, in any letter
    case, inside a foundation statement has that seed weight, and each
    principle that no statement mentions has its weight from the default
    table. *)
Theorem initialize_principle_weights_complete (foundation : list string) :
  dom (_initialize_principle_weights foundation)
    = list_to_set (domain_value <$> all_domains) ∧
  (∀ p x, seed_of p = Some x → mentioned p foundation →
          _initialize_principle_weights foundation !! domain_value p = Some x) ∧
  (∀ p, ¬ mentioned p foundation →
        _initialize_principle_weights foundation !! domain_value p
        = (list_to_map default_weights : gmap string Q) !! domain_value p).
Proof.
  rewrite initialize_principle_weights_defaults. split; [|split].
  - vm_compute. reflexivity.
  - intros p x Hseed _. destruct p; simpl in Hseed; try discriminate;
      injection Hseed as <-; vm_compute; reflexivity.
  - reflexivity.
Qed.

Lemma initialize_principle_weights_witness :
  _initialize_principle_weights ["Respect user PRIVACY at all times"]
    !! "privacy" = Some 1%Q.
Proof.
  apply (proj1 (proj2 (initialize_principle_weights_complete
                         ["Respect user PRIVACY at all times"])) PRIVACY).
  - reflexivity.
  - exists "Respect user PRIVACY at all times". split.
    + apply list_elem_of_singleton. reflexivity.
    + vm_compute. reflexivity.
Defined.

(** ** [review_decision]: the fail-closed contract *)

(** On a dict every [get] returns, and the context is built. *)
Lemma review_context_dict action m metadata :
  review_context action (ADict m) metadata
  = Ok (dict_context action m metadata).
Proof. reflexivity. Qed.

Lemma review_except_returns X action m e w :
  ∃ d w', review_except X action (ADict m) e w = (Ok d, w') ∧
    gov w' = gov w ∧ steps (env w') = steps (env w) ∧
    decision d = BLOCK ∧ severity d = CRITICAL ∧
    escalation_reason d = Some "review_system_error" ∧
    reasoning d = ("Ethical review failed: " ++ exc_str e)%string.
Proof.
  unfold review_except, bind, time, ret. simpl.
  eexists _, _. repeat split.
Qed.

(** When [context] is a dict, [review_decision] returns a decision and does
    not raise, for every action type, metadata and state; and when the body
    of its [try] raises an exception [e], be it in a truth test of the
    evaluation or in the sink, the decision returned is [block]/[critical]
    with [escalation_reason = "review_system_error"] and the text of [e] at
    the end of the reasoning. *)
Theorem review_decision_fails_closed X (action : string)
  (m : gmap string PyVal) (metadata : option (gmap string PyVal)) (w : World) :
  (∃ d w', review_decision X action (ADict m) metadata w = (Ok d, w')) ∧
  (∀ e w1, review_try X action (ADict m) metadata w = (Raise e, w1) →
     ∃ d w', review_decision X action (ADict m) metadata w = (Ok d, w') ∧
       decision d = BLOCK ∧ severity d = CRITICAL ∧
       escalation_reason d = Some "review_system_error" ∧
       reasoning d = ("Ethical review failed: " ++ exc_str e)%string).
Proof.
  unfold review_decision, try_except. split.
  - destruct (review_try X action (ADict m) metadata w) as [[d|e] w1].
    + eauto.
    + destruct (review_except_returns X action m e w1) as (d & w' & H & _).
      eauto.
  - intros e w1 ->.
    destruct (review_except_returns X action m e w1)
      as (d & w' & H & _ & _ & Hd).
    eauto.
Qed.

Lemma review_decision_fails_closed_witness :
  (review_try quiet "data_access" (ADict ambiguous_truth) None inactive_world).1
    = Raise (mkException "ValueError" "truth value is ambiguous") ∧
  ∃ d w', review_decision quiet "data_access" (ADict ambiguous_truth) None
            inactive_world = (Ok d, w') ∧
    decision d = BLOCK ∧ severity d = CRITICAL ∧
    escalation_reason d = Some "review_system_error" ∧
    reasoning d
    = ("Ethical review failed: " ++
       exc_str (mkException "ValueError" "truth value is ambiguous"))%string.
Proof.
  split; [vm_compute; reflexivity|].
  eapply (proj2 (review_decision_fails_closed quiet "data_access"
                   ambiguous_truth None inactive_world)).
  vm_compute. reflexivity.
Defined.

(** The same when the evaluation succeeds and the sink raises. *)
Example review_decision_sink_down :
  ∃ d w', review_decision sink_down "data_access" (ADict ∅) None inactive_world
          = (Ok d, w') ∧
    decision d = BLOCK ∧ severity d = CRITICAL ∧
    reasoning d = "Ethical review failed: awareness sink unavailable".
Proof. vm_compute. eexists _, _. repeat split. Qed.

(** The handler reads the clock twice and then asks [context] for
    ["persona"]: what that [get] raises leaves the handler. *)
Lemma review_except_raises X action a e0 e w :
  arg_get a "persona" (VStr "unknown") = Raise e →
  ∃ w', review_except X action a e0 w = (Raise e, w').
Proof.
  intros H. unfold review_except, bind, time, ret, lift_result. simpl.
  rewrite H. eauto.
Qed.

(** The first argument of [EthicalContext(...)] is the same [get]. *)
Lemma review_try_raises X action a metadata e w :
  arg_get a "persona" (VStr "unknown") = Raise e →
  review_try X action a metadata w = (Raise e, w).
Proof.
  intros H. unfold review_try, bind, lift_result, review_context. simpl.
  rewrite H. reflexivity.
Qed.

(** C1. [review_decision] does not return the [block]/[critical] decision
    for every failure: when [context.get("persona", "unknown")] raises [e],
    as it does on a [context] that is [None] or any other value without a
    [get], the construction of the context raises inside the [try], the
    handler makes the same call while it builds the fallback decision, and
    [e] reaches the caller of [review_decision]. *)
Theorem review_decision_handler_raises X (action : string) (a : ContextArg)
  (metadata : option (gmap string PyVal)) (w : World) (e : Exception) :
  arg_get a "persona" (VStr "unknown") = Raise e →
  ∃ w', review_decision X action a metadata w = (Raise e, w').
Proof.
  intros H. unfold review_decision, try_except.
  rewrite (review_try_raises X action a metadata e w H).
  apply review_except_raises, H.
Qed.

(** A mapping whose [get] raises, whatever the key. *)
Lemma review_decision_handler_raises_witness :
  arg_get unreadable_mapping "persona" (VStr "unknown")
  = Raise (mkException "RuntimeError" "context store unavailable") ∧
  ∃ w', review_decision quiet "data_access" unreadable_mapping None
          inactive_world
        = (Raise (mkException "RuntimeError" "context store unavailable"),
           w').
Proof.
  split; [reflexivity|].
  apply (review_decision_handler_raises quiet "data_access"
           unreadable_mapping None inactive_world).
  reflexivity.
Defined.

(** [review_decision("data_access", None)]: a JSON [null] in the place of
    the mapping. *)
Example review_decision_on_none :
  (review_decision quiet "data_access" (AValue VNone) None
     inactive_world).1
  = Raise (mkException "AttributeError"
             "'NoneType' object has no attribute 'get'").
Proof. vm_compute. reflexivity. Qed.

(** A JSON list does the same. *)
Example review_decision_on_a_list :
  (review_decision quiet "data_access" (AValue (VList [])) None
     inactive_world).1
  = Raise (mkException "AttributeError"
             "'list' object has no attribute 'get'").
Proof. vm_compute. reflexivity. Qed.

(** Outside that case the handler returns: when the [get] of ["persona"]
    returns, so does [review_decision], and a failure of the [try], a later
    [get] included, gives the [block]/[critical] decision. *)
Theorem review_decision_fails_closed_when_persona_is_read X (action : string)
  (a : ContextArg) (metadata : option (gmap string PyVal)) (w : World)
  (v : PyVal) :
  arg_get a "persona" (VStr "unknown") = Ok v →
  (∃ d w', review_decision X action a metadata w = (Ok d, w')) ∧
  (∀ e w1, review_try X action a metadata w = (Raise e, w1) →
     ∃ d w', review_decision X action a metadata w = (Ok d, w') ∧
       decision d = BLOCK ∧ severity d = CRITICAL ∧ actor d = v ∧
       escalation_reason d = Some "review_system_error" ∧
       reasoning d = ("Ethical review failed: " ++ exc_str e)%string).
Proof.
  intros Hv.
  assert (∀ e w1, ∃ d w', review_except X action a e w1 = (Ok d, w') ∧
            decision d = BLOCK ∧ severity d = CRITICAL ∧ actor d = v ∧
            escalation_reason d = Some "review_system_error" ∧
            reasoning d = ("Ethical review failed: " ++ exc_str e)%string)
    as Hex.
  { intros e w1. unfold review_except, bind, time, ret, lift_result. simpl.
    rewrite Hv. eexists _, _. repeat split. }
  unfold review_decision, try_except. split.
  - destruct (review_try X action a metadata w) as [[d|e] w1]; [eauto|].
    destruct (Hex e w1) as (d & w' & H & _). eauto.
  - intros e w1 ->. apply Hex.
Qed.

(** An object whose [get] knows ["persona"] and nothing else. *)
Example review_decision_partial_mapping :
  ∃ d w', review_decision quiet "data_access"
            (AObject (λ key _, if String.eqb key "persona"
                               then Ok (VStr "kai")
                               else Raise (mkException "LookupError" key)))
            None inactive_world = (Ok d, w') ∧
    decision d = BLOCK ∧ severity d = CRITICAL ∧ actor d = VStr "kai" ∧
    reasoning d = "Ethical review failed: target".
Proof. vm_compute. eexists _, _. repeat split. Qed.

(** ** The general evaluation *)

(** On a context that holds what its annotations announce, no truth test
    raises and [_check_violations] is the list of the rules that fire. *)
Lemma check_violations_well_typed action c :
  context_well_typed c →
  ∃ sensitive consent modification visible persistent scope,
    ctx_sensitive_data_involved c = VBool sensitive ∧
    truthy (ctx_user_consent c) = Ok consent ∧
    ctx_system_modification c = VBool modification ∧
    ctx_user_visible c = VBool visible ∧
    ctx_persistent c = VBool persistent ∧
    ctx_scope c = VStr scope ∧
    _check_violations action c
    = Ok ((if sensitive && negb consent then ["privacy"] else []) ++
          (if modification && String.eqb scope "global"
           then ["security"] else []) ++
          (if negb visible && persistent then ["autonomy"] else [])).
Proof.
  intros [_ _ [scope Hscope] Hconsent _ [p Hp] [s Hs] [sm Hsm] [v Hv]].
  assert (∃ consent, truthy (ctx_user_consent c) = Ok consent) as [k Hk].
  { destruct Hconsent as [->|[b ->]]; simpl; eauto. }
  exists s, k, sm, v, p, scope. repeat split; try done.
  unfold _check_violations. rewrite Hs, Hsm, Hv, Hp, Hscope. simpl.
  destruct s; simpl; rewrite ?Hk; simpl;
    destruct k, sm, (String.eqb scope "global"), v, p; reflexivity.
Qed.

(** C5. For every context that holds what its annotations announce, with
    [sensitive_data_involved = True] and [user_consent] other than [True],
    [_check_violations] returns a list containing ["privacy"], and
    [_evaluate_action] returns [block]/[violation] with confidence 0.95 and
    ["privacy"] among the affected principles, which are exactly
    ["privacy"] when neither the security nor the autonomy rule fires. *)
Theorem privacy_violation_blocks X (action : string) (c : EthicalContext)
  (w : World) :
  context_well_typed c →
  ctx_sensitive_data_involved c = VBool true →
  ctx_user_consent c ≠ VBool true →
  (∃ vs, _check_violations action c = Ok vs ∧ "privacy" ∈ vs) ∧
  (∃ d w', _evaluate_action X action c w = (Ok d, w') ∧
     decision d = BLOCK ∧ severity d = VIOLATION ∧
     confidence d = (95 # 100)%Q ∧
     "privacy" ∈ affected_principles d ∧
     (¬ security_rule_fires c → ¬ autonomy_rule_fires c →
      affected_principles d = ["privacy"])).
Proof.
  intros Hwt Hsens Hconsent.
  destruct (check_violations_well_typed action c Hwt)
    as (s & k & sm & v & p & scope & Hs & Hk & Hsm & Hv & Hp & Hscope & Hcv).
  rewrite Hsens in Hs. injection Hs as <-.
  assert (k = false) as ->.
  { destruct (wt_user_consent c Hwt) as [Hn|[b Hb]].
    - rewrite Hn in Hk. simpl in Hk. congruence.
    - rewrite Hb in Hk, Hconsent. simpl in Hk. destruct b; congruence. }
  simpl in Hcv. split.
  - eexists. split; [exact Hcv|]. apply list_elem_of_here.
  - unfold _evaluate_action, call, bind, time, log, lift_result, ret. simpl.
    rewrite Hcv. simpl. eexists _, _. split; [reflexivity|]. simpl.
    repeat split; [apply list_elem_of_here|].
    intros Hsec Haut. f_equal.
    destruct (sm && String.eqb scope "global") eqn:E1.
    { exfalso. apply Hsec. apply andb_prop in E1 as [-> E1].
      apply String.eqb_eq in E1 as ->. by split. }
    destruct (negb v && p) eqn:E2; [|done].
    exfalso. apply Haut. apply andb_prop in E2 as [E2 ->].
    apply negb_true_iff in E2 as ->. by split.
Qed.

Lemma privacy_violation_blocks_witness :
  ∃ d w', _evaluate_action quiet "data_access" sensitive_context
            inactive_world = (Ok d, w') ∧
    decision d = BLOCK ∧ severity d = VIOLATION ∧
    confidence d = (95 # 100)%Q ∧ affected_principles d = ["privacy"].
Proof.
  assert (Hwt : context_well_typed sensitive_context).
  { split; vm_compute; eauto. }
  destruct (proj2 (privacy_violation_blocks quiet "data_access"
                     sensitive_context inactive_world Hwt eq_refl
                     ltac:(vm_compute; discriminate)))
    as (d & w' & H & Hd & Hs & Hc & _ & Hp).
  exists d, w'. repeat split; try assumption.
  apply Hp; vm_compute; intros [? ?]; discriminate.
Defined.

(** [_evaluate_action] leaves the governor object alone. *)
Lemma evaluate_action_general_gov X action c w :
  gov (_evaluate_action X action c w).2 = gov w.
Proof.
  unfold _evaluate_action, call, bind, time, log, lift_result, ret. simpl.
  destruct (_check_violations action c) as [[|v vs]|e]; simpl; try done.
  destruct (_check_concerns action c) as [[|k ks]|e]; simpl; done.
Qed.

(** C6, as the code has it. In the general evaluation a non-empty violation
    list yields [block]/[violation] with exactly the violated principles,
    whatever [_check_concerns] would return; [_check_violations] is called
    in every general evaluation, and [_check_concerns] is called only when
    [_check_violations] returned the empty list. *)
Theorem violations_take_precedence X (action : string) (c : EthicalContext)
  (w : World) :
  (∃ rest, steps (env (_evaluate_action X action c w).2)
           = steps (env w) ++ Call "_check_violations" :: rest) ∧
  (∀ vs, _check_violations action c = Ok vs → vs ≠ [] →
     ∃ d, (_evaluate_action X action c w).1 = Ok d ∧
       decision d = BLOCK ∧ severity d = VIOLATION ∧
       affected_principles d = vs ∧
       steps (env (_evaluate_action X action c w).2)
       = steps (env w) ++ [Call "_check_violations"]) ∧
  (_check_violations action c = Ok [] →
     steps (env (_evaluate_action X action c w).2)
     = steps (env w) ++ [Call "_check_violations"; Call "_check_concerns"]).
Proof.
  unfold _evaluate_action, call, bind, time, log, lift_result, ret. simpl.
  destruct (_check_violations action c) as [[|v vs]|e]; simpl.
  - destruct (_check_concerns action c) as [[|k ks]|e]; simpl;
      (split; [eexists; rewrite <- app_assoc; reflexivity|]);
      (split; [intros ? [= <-] ?; done|]);
      intros _; by rewrite <- app_assoc.
  - split; [by eexists|]. split; [|discriminate].
    intros ? [= <-] _. eexists. repeat split.
  - split; [by eexists|]. split; discriminate.
Qed.

Lemma violations_take_precedence_witness :
  ∃ d, (_evaluate_action quiet "data_access" hidden_sensitive_context
          inactive_world).1 = Ok d ∧
    decision d = BLOCK ∧ severity d = VIOLATION ∧
    affected_principles d = ["privacy"] ∧
    steps (env (_evaluate_action quiet "data_access" hidden_sensitive_context
                  inactive_world).2)
    = steps (env inactive_world) ++ [Call "_check_violations"].
Proof.
  apply (proj1 (proj2 (violations_take_precedence quiet "data_access"
                         hidden_sensitive_context inactive_world))).
  - vm_compute. reflexivity.
  - discriminate.
Defined.

(** C6, as stated, fails: with sensitive data, no consent and an action the
    user does not see, the transparency concern applies, yet the general
    evaluation blocks on the privacy violation and never calls
    [_check_concerns]. *)
Lemma concerns_not_checked_after_violation :
  _check_concerns "data_access" hidden_sensitive_context
    = Ok ["transparency"] ∧
  ∃ d w', _evaluate_action quiet "data_access" hidden_sensitive_context
            inactive_world = (Ok d, w') ∧
    decision d = BLOCK ∧
    Call "_check_violations" ∈ steps (env w') ∧
    Call "_check_concerns" ∉ steps (env w').
Proof.
  split; [vm_compute; reflexivity|].
  eexists _, _. split; [vm_compute; reflexivity|]. simpl.
  split; [reflexivity|]. split.
  - apply list_elem_of_here.
  - intros H. apply list_elem_of_singleton in H. discriminate H.
Qed.

(** ** [review_decision]: what it leaves alone *)

(** What [review_decision] does to the world, whatever it returns: the
    governor object is the same, and the new steps are the call of
    [_evaluate_action] and of the checks. *)
Lemma review_decision_world X action m metadata w :
  gov (review_decision X action (ADict m) metadata w).2 = gov w ∧
  ∃ rest, steps (env (review_decision X action (ADict m) metadata w).2)
          = steps (env w) ++
            Call "_evaluate_action" :: Call "_check_violations" :: rest ∧
          (rest = [] ∨ rest = [Call "_check_concerns"]).
Proof.
  unfold review_decision, try_except, review_try, review_except,
    _evaluate_action, call, perceive, bind, time, log, lift_result, ret.
  simpl.
  destruct (_check_violations action _) as [[|v vs]|e]; simpl.
  - destruct (_check_concerns action _) as [[|k ks]|e]; simpl;
      try destruct (perceive_ethical_decision X _ _); simpl;
      (split; [reflexivity|]); eexists;
      (split; [repeat rewrite <- app_assoc; reflexivity | by right]).
  - destruct (perceive_ethical_decision X _ _); simpl;
      (split; [reflexivity|]); eexists;
      (split; [repeat rewrite <- app_assoc; reflexivity | by left]).
  - split; [reflexivity|]. eexists.
    split; [repeat rewrite <- app_assoc; reflexivity | by left].
Qed.

(** The outcome of [review_decision] does not depend on the governor
    object: neither the registry nor any other attribute is read. *)
Lemma review_decision_ignores_governor X action m metadata w g :
  (review_decision X action (ADict m) metadata {| gov := g; env := env w |}).1
  = (review_decision X action (ADict m) metadata w).1.
Proof.
  unfold review_decision, try_except, review_try, review_except,
    _evaluate_action, call, perceive, bind, time, log, lift_result, ret.
  simpl.
  destruct (_check_violations action _) as [[|v vs]|e]; simpl; try done.
  - destruct (_check_concerns action _) as [[|k ks]|e]; simpl; try done;
      destruct (perceive_ethical_decision X _ _); simpl; done.
  - destruct (perceive_ethical_decision X _ _); simpl; done.
Qed.

(** C10. For every call of [review_decision], whether it returns the
    computed decision or the fail-closed one, the governor object is
    unchanged (history, metrics and principle weights included); the steps it
    adds are the general evaluation and its checks, with no interceptor among
    them; and its outcome is the same whatever the governor object holds, so
    also for an action type with a registered interceptor. *)
Theorem review_decision_frame X (action : string) (m : gmap string PyVal)
  (metadata : option (gmap string PyVal)) (w : World) :
  gov (review_decision X action (ADict m) metadata w).2 = gov w ∧
  decision_history (gov (review_decision X action (ADict m) metadata w).2)
    = decision_history (gov w) ∧
  ethical_metrics (gov (review_decision X action (ADict m) metadata w).2)
    = ethical_metrics (gov w) ∧
  principle_weights (gov (review_decision X action (ADict m) metadata w).2)
    = principle_weights (gov w) ∧
  (∃ rest, steps (env (review_decision X action (ADict m) metadata w).2)
           = steps (env w) ++
             Call "_evaluate_action" :: Call "_check_violations" :: rest ∧
           (rest = [] ∨ rest = [Call "_check_concerns"])) ∧
  (∀ f, (review_decision X action (ADict m) metadata
           {| gov := register_interceptor action f (gov w); env := env w |}).1
        = (review_decision X action (ADict m) metadata w).1).
Proof.
  destruct (review_decision_world X action m metadata w) as [Hg Hs].
  rewrite Hg. repeat split; try done.
  intros f. apply review_decision_ignores_governor.
Qed.

(** ** [evaluate_action] while governance is inactive *)

(** The inactive branch: when [_generate_decision_id] returns [id] and
    leaves the object as [g1], [evaluate_action] returns the allow decision
    with that id, reads the clock once and does nothing else. *)
Lemma inactive_branch_run X ns gen action who data c w id g1 :
  ns_generate_decision_id ns = Some gen →
  governance_active (gov w) = false →
  gen action who (gov w) = (Ok id, g1) →
  evaluate_action X ns action who data c w
  = (Ok {| decision_id := id;
           timestamp := time_time X (clock (env w));
           action_type := action; actor := VStr who;
           context := default (default_context action (VStr who)) c;
           decision := ALLOW; severity := INFO;
           affected_principles := [];
           reasoning := "Ethical governance not active";
           confidence := 1%Q;
           restrictions := []; monitoring_requirements := [];
           escalation_reason := None |},
     {| gov := g1;
        env := {| clock := S (clock (env w));
                  emitted := emitted (env w);
                  steps := steps (env w) |} |}).
Proof.
  intros Hns Hact Hgen.
  unfold evaluate_action, evaluate_inactive, bind, get_gov. simpl.
  rewrite Hact, Hns. simpl.
  unfold lift_method. rewrite Hgen. reflexivity.
Qed.

(** C4, as the code has it. On a governor with [governance_active = False],
    [evaluate_action] first calls [_generate_decision_id]: on an object
    that does not have it the call raises [AttributeError] and returns no
    decision; when the method raises, so does the call; and when it returns
    and leaves the history and the metrics alone, the call returns a
    decision with [allow], [info], no affected principle and the reasoning
    "Ethical governance not active", and the history and the metrics, the
    count of decisions among them, are as before. *)
Theorem evaluate_action_inactive X ns (action who : string)
  (data : gmap string PyVal) (c : option EthicalContext) (w : World) :
  governance_active (gov w) = false →
  (ns_generate_decision_id ns = None →
   evaluate_action X ns action who data c w
   = (Raise (AttributeError "_generate_decision_id"), w)) ∧
  (∀ gen e g1, ns_generate_decision_id ns = Some gen →
     gen action who (gov w) = (Raise e, g1) →
     evaluate_action X ns action who data c w
     = (Raise e, {| gov := g1; env := env w |})) ∧
  (∀ gen, ns_generate_decision_id ns = Some gen →
     returns (gen action who) →
     keeps_history (gen action who) →
     keeps_metrics (gen action who) →
     ∃ d w', evaluate_action X ns action who data c w = (Ok d, w') ∧
       decision d = ALLOW ∧ severity d = INFO ∧
       reasoning d = "Ethical governance not active" ∧
       affected_principles d = [] ∧
       decision_history (gov w') = decision_history (gov w) ∧
       ethical_metrics (gov w') = ethical_metrics (gov w) ∧
       total_decisions (ethical_metrics (gov w'))
       = total_decisions (ethical_metrics (gov w))).
Proof.
  intros Hact. split_and!.
  - intros Hns.
    unfold evaluate_action, evaluate_inactive, bind, get_gov. simpl.
    rewrite Hact, Hns. simpl. by destruct w.
  - intros gen e g1 Hns Hgen.
    unfold evaluate_action, evaluate_inactive, bind, get_gov. simpl.
    rewrite Hact, Hns. simpl.
    unfold lift_method. rewrite Hgen. reflexivity.
  - intros gen Hns Hret Hhist Hmet.
    destruct (Hret (gov w)) as (id & g1 & Hgen).
    specialize (Hhist (gov w)). specialize (Hmet (gov w)).
    rewrite Hgen in Hhist, Hmet. simpl in Hhist, Hmet.
    eexists _, _. split.
    + eapply inactive_branch_run; eauto.
    + simpl. rewrite Hmet. repeat split; done.
Qed.

Lemma with_decision_id_returns action who :
  ∀ gen, ns_generate_decision_id with_decision_id = Some gen →
    returns (gen action who) ∧ keeps_history (gen action who) ∧
    keeps_metrics (gen action who).
Proof.
  intros gen [= <-]. split; [|split]; intros g; simpl; eauto.
Qed.

Lemma evaluate_action_inactive_witness :
  governance_active (gov inactive_world) = false ∧
  evaluate_action quiet nothing_bound "data_access" "agent" ∅ None
    inactive_world
  = (Raise (AttributeError "_generate_decision_id"), inactive_world) ∧
  ∃ d w', evaluate_action quiet with_decision_id "data_access" "agent"
            ∅ None inactive_world = (Ok d, w') ∧
    decision d = ALLOW ∧ severity d = INFO ∧
    reasoning d = "Ethical governance not active" ∧
    affected_principles d = [] ∧
    decision_history (gov w') = decision_history (gov inactive_world) ∧
    ethical_metrics (gov w') = ethical_metrics (gov inactive_world) ∧
    total_decisions (ethical_metrics (gov w'))
    = total_decisions (ethical_metrics (gov inactive_world)).
Proof.
  split; [reflexivity|]. split.
  - exact (proj1 (evaluate_action_inactive quiet nothing_bound "data_access"
                    "agent" ∅ None inactive_world eq_refl) eq_refl).
  - destruct (with_decision_id_returns "data_access" "agent" _ eq_refl)
      as (Hr & Hh & Hm).
    exact (proj2 (proj2 (evaluate_action_inactive quiet with_decision_id
                           "data_access" "agent" ∅ None inactive_world
                           eq_refl)) _ eq_refl Hr Hh Hm).
Defined.

(** C4, as stated, fails on both counts: the reasoning of the decision is
    not the string "governance not active", and on an object without
    [_generate_decision_id] the inactive call returns no decision. *)
Lemma inactive_call_differs :
  governance_active (gov inactive_world) = false ∧
  (∃ d w', evaluate_action quiet with_decision_id "data_access" "agent"
             ∅ None inactive_world = (Ok d, w') ∧
     decision d = ALLOW ∧
     reasoning d = "Ethical governance not active" ∧
     reasoning d ≠ "governance not active") ∧
  (evaluate_action quiet nothing_bound "data_access" "agent" ∅ None
     inactive_world).1
  = Raise (mkException "AttributeError"
             "'EthicalGovernor' object has no attribute '_generate_decision_id'").
Proof.
  split; [reflexivity|]. split; [|vm_compute; reflexivity].
  eexists _, _. split; [vm_compute; reflexivity|]. simpl.
  repeat split. discriminate.
Qed.

(** C3, as the code has it. While [governance_active] is false,
    [evaluate_action] allows every action without calling a check, provided
    [_generate_decision_id] returns; [review_decision] does not read
    [governance_active]: it calls [_check_violations] and returns what it
    returns when governance is active. *)
Theorem inactive_bypass_is_evaluate_only X ns gen (action who : string)
  (data : gmap string PyVal) (c : option EthicalContext)
  (m : gmap string PyVal) (metadata : option (gmap string PyVal))
  (w : World) :
  ns_generate_decision_id ns = Some gen →
  returns (gen action who) →
  governance_active (gov w) = false →
  (∃ d w', evaluate_action X ns action who data c w = (Ok d, w') ∧
     decision d = ALLOW ∧ severity d = INFO ∧
     steps (env w') = steps (env w)) ∧
  Call "_check_violations"
    ∈ steps (env (review_decision X action (ADict m) metadata w).2) ∧
  (review_decision X action (ADict m) metadata w).1
  = (review_decision X action (ADict m) metadata
       {| gov := set_governance_active true (gov w); env := env w |}).1.
Proof.
  intros Hns Hret Hact. split; [|split].
  - destruct (Hret (gov w)) as (id & g1 & Hgen).
    eexists _, _. split.
    + eapply inactive_branch_run; eauto.
    + simpl. repeat split.
  - destruct (review_decision_world X action m metadata w)
      as (_ & rest & -> & _).
    apply elem_of_app. right. apply list_elem_of_further, list_elem_of_here.
  - symmetry. apply review_decision_ignores_governor.
Qed.

Lemma inactive_bypass_is_evaluate_only_witness :
  (∃ d w', evaluate_action quiet with_decision_id "data_access" "agent"
             ∅ None inactive_world = (Ok d, w') ∧
     decision d = ALLOW ∧ severity d = INFO ∧
     steps (env w') = steps (env inactive_world)) ∧
  Call "_check_violations"
    ∈ steps (env (review_decision quiet "data_access"
                    (ADict sensitive_unconsented) None inactive_world).2) ∧
  (review_decision quiet "data_access" (ADict sensitive_unconsented) None
     inactive_world).1
  = (review_decision quiet "data_access" (ADict sensitive_unconsented) None
       {| gov := set_governance_active true (gov inactive_world);
          env := env inactive_world |}).1.
Proof.
  destruct (with_decision_id_returns "data_access" "agent" _ eq_refl)
    as (Hr & _).
  exact (inactive_bypass_is_evaluate_only quiet with_decision_id _
           "data_access" "agent" ∅ None sensitive_unconsented None
           inactive_world eq_refl Hr eq_refl).
Defined.

(** C3, as stated, fails for [review_decision]: on a governor that was never
    activated it runs the violation check and blocks sensitive data without
    consent. *)
Lemma review_decision_checks_while_inactive :
  governance_active (gov inactive_world) = false ∧
  ∃ d w', review_decision quiet "data_access" (ADict sensitive_unconsented) None
            inactive_world = (Ok d, w') ∧
    decision d = BLOCK ∧ decision d ≠ ALLOW ∧
    Call "_check_violations" ∈ steps (env w').
Proof.
  split; [reflexivity|].
  eexists _, _. split; [vm_compute; reflexivity|]. simpl.
  split; [reflexivity|]. split; [discriminate|].
  apply list_elem_of_further, list_elem_of_here.
Qed.

(** ** [evaluate_action] and the awareness sink *)

(** The active branch after the decision is made. *)
Lemma evaluate_action_active_run X ns action who data c w d w1 :
  governance_active (gov w) = true →
  decide_action X ns action who data c w = (Ok d, w1) →
  evaluate_action X ns action who data c w
  = (store_decision d;; perceive X (decision_event d);;
     learn_if_enabled ns d;; ret d) w1.
Proof.
  intros Hact Hd. unfold evaluate_action, bind at 1, get_gov. simpl.
  rewrite Hact. simpl. unfold bind at 1. rewrite Hd. reflexivity.
Qed.

(** C7, as the code has it. With governance active and a decision [d]
    made, a failure of the sink is not caught: [evaluate_action] raises the
    sink's exception to its caller, after [d] was stored in the history and
    counted; when the sink returns, and the learning step is off or returns,
    [evaluate_action] returns [d]. *)
Theorem sink_failure_reaches_caller X ns (action who : string)
  (data : gmap string PyVal) (c : option EthicalContext) (w : World)
  (d : EthicalDecision) (w1 : World) :
  governance_active (gov w) = true →
  decide_action X ns action who data c w = (Ok d, w1) →
  (∀ e, perceive_ethical_decision X (emitted (env w1)) (decision_event d)
        = Some e →
     ∃ w', evaluate_action X ns action who data c w = (Raise e, w') ∧
       decision_history (gov w')
       = deque_append history_maxlen (decision_history (gov w1)) d ∧
       total_decisions (ethical_metrics (gov w'))
       = (total_decisions (ethical_metrics (gov w1)) + 1)%Z) ∧
  (perceive_ethical_decision X (emitted (env w1)) (decision_event d) = None →
   learning_mode (gov w1) = false ∨
   (∃ f, ns_learn_from_decision ns = Some f ∧ returns (f d)) →
   ∃ w', evaluate_action X ns action who data c w = (Ok d, w')).
Proof.
  intros Hact Hd. rewrite (evaluate_action_active_run _ _ _ _ _ _ _ _ _ Hact Hd).
  unfold store_decision, perceive, learn_if_enabled, bind, modify_gov, log,
    get_gov, ret. simpl. split.
  - intros e ->. eexists. split; [reflexivity|]. simpl.
    split; [reflexivity|]. by destruct (decision d).
  - intros -> Hlearn. simpl. destruct Hlearn as [->|(f & -> & Hf)].
    + by eexists.
    + destruct (learning_mode (gov w1)); [|by eexists].
      simpl. unfold lift_method. simpl.
      match goal with |- context [f d ?g] => destruct (Hf g) as (u & g' & ->) end.
      by eexists.
Qed.

Lemma sink_failure_reaches_caller_witness :
  ∃ w', evaluate_action sink_down with_decision_id "custom_action" "agent" ∅
          (Some (default_context "custom_action" (VStr "agent")))
          active_world
        = (Raise (mkException "RuntimeError" "awareness sink unavailable"), w')
    ∧ length (decision_history (gov w')) = 1%nat
    ∧ total_decisions (ethical_metrics (gov w')) = 1%Z.
Proof.
  assert (Hd : decide_action sink_down with_decision_id "custom_action"
                 "agent" ∅
                 (Some (default_context "custom_action" (VStr "agent")))
                 active_world
               = (Ok (sample_decision "agent"
                        (default_context "custom_action" (VStr "agent"))
                        "ethical_custom_action_agent"),
                  {| gov := gov active_world;
                     env := mkEnv 0 []
                              [Dispatch "custom_action" (Function 0)] |})).
  { vm_compute. reflexivity. }
  destruct (proj1 (sink_failure_reaches_caller sink_down with_decision_id
                     "custom_action" "agent" ∅ _ active_world _ _
                     eq_refl Hd) _ eq_refl) as (w' & Hw & Hh & Ht).
  exists w'. split; [exact Hw|]. rewrite Hh, Ht. split; reflexivity.
Defined.

(** C7, as stated, fails: with governance active, a caller-registered
    evaluator that allows the action and a sink that raises,
    [evaluate_action] raises the sink's exception and returns no decision. *)
Lemma sink_failure_surfaces :
  governance_active (gov active_world) = true ∧
  (decide_action sink_down with_decision_id "custom_action" "agent" ∅
     (Some (default_context "custom_action" (VStr "agent"))) active_world).1
  = Ok (sample_decision "agent"
          (default_context "custom_action" (VStr "agent"))
          "ethical_custom_action_agent") ∧
  (evaluate_action sink_down with_decision_id "custom_action" "agent" ∅
     (Some (default_context "custom_action" (VStr "agent"))) active_world).1
  = Raise (mkException "RuntimeError" "awareness sink unavailable") ∧
  ¬ ∃ d, (evaluate_action sink_down with_decision_id "custom_action" "agent"
            ∅ (Some (default_context "custom_action" (VStr "agent")))
            active_world).1 = Ok d.
Proof.
  assert (H : (evaluate_action sink_down with_decision_id "custom_action"
                 "agent" ∅
                 (Some (default_context "custom_action" (VStr "agent")))
                 active_world).1
              = Raise (mkException "RuntimeError" "awareness sink unavailable")).
  { vm_compute. reflexivity. }
  split; [reflexivity|]. split; [vm_compute; reflexivity|].
  split; [exact H|]. intros [d Hd]. rewrite H in Hd. discriminate Hd.
Qed.

(** ** The bounded history *)

Lemma length_last_n {A} (n : Z) (l : list A) :
  (0 ≤ n)%Z →
  Z.of_nat (length (last_n n l)) = Z.min n (Z.of_nat (length l)).
Proof. intros Hn. unfold last_n. rewrite length_drop. lia. Qed.

(** Appending to the deque that holds the last [n] items of [l] gives the
    last [n] items of [l] with the new item. *)
Lemma deque_append_last_n {A} (n : Z) (l : list A) (x : A) :
  (0 ≤ n)%Z →
  deque_append n (last_n n l) x = last_n n (l ++ [x]).
Proof.
  intros Hn. unfold deque_append, last_n.
  rewrite !length_app, length_drop. simpl.
  destruct (Z.ltb_spec n (Z.of_nat (length l - (length l - Z.to_nat n) + 1))).
  - assert (Hle : (Z.to_nat n ≤ length l)%nat) by lia.
    destruct (decide (Z.to_nat n = 0%nat)) as [Hz|Hz].
    + rewrite Hz, Nat.sub_0_r, drop_all.
      rewrite drop_ge by (rewrite length_app; simpl; lia). reflexivity.
    + replace (length l + 1 - Z.to_nat n)%nat
        with (S (length l - Z.to_nat n)) by lia.
      rewrite (drop_app_le l [x] (S (length l - Z.to_nat n))) by lia.
      destruct (drop (length l - Z.to_nat n) l) as [|y t] eqn:E; simpl.
      * apply (f_equal length) in E. rewrite length_drop in E. simpl in E. lia.
      * f_equal. rewrite <- (Nat.add_1_r (length l - Z.to_nat n)).
        rewrite <- drop_drop, E. reflexivity.
  - replace (length l - Z.to_nat n)%nat with 0%nat by lia.
    replace (length l + 1 - Z.to_nat n)%nat with 0%nat by lia.
    reflexivity.
Qed.

Lemma same_records_invariant (w w' : World) :
  decision_history (gov w') = decision_history (gov w) →
  recorded w' = recorded w →
  history_invariant w → history_invariant w'.
Proof. unfold history_invariant. intros -> ->. done. Qed.

Lemma bind_keeps_invariant {A B} (c : M A) (k : A → M B) :
  keeps_invariant c → (∀ a, keeps_invariant (k a)) →
  keeps_invariant (bind c k).
Proof.
  intros Hc Hk w Hw. unfold bind. specialize (Hc w Hw).
  destruct (c w) as [[a|e] w1]; simpl in *; [by apply Hk | done].
Qed.

Lemma ret_keeps_invariant {A} (a : A) : keeps_invariant (ret a).
Proof. intros w Hw. exact Hw. Qed.

Lemma get_gov_keeps_invariant : keeps_invariant get_gov.
Proof. intros w Hw. exact Hw. Qed.

Lemma time_keeps_invariant X : keeps_invariant (time X).
Proof. intros w Hw. exact Hw. Qed.

Lemma perceive_keeps_invariant X ev : keeps_invariant (perceive X ev).
Proof.
  intros w Hw. unfold perceive.
  destruct (perceive_ethical_decision X _ _); exact Hw.
Qed.

Lemma call_missing_keeps_invariant {A} name (m : option (Method A)) :
  (∀ f, m = Some f → keeps_history f) → keeps_invariant (call_missing name m).
Proof.
  intros Hm w Hw. destruct m as [f|]; simpl; [|exact Hw].
  unfold lift_method. specialize (Hm f eq_refl (gov w)).
  destruct (f (gov w)) as [r g]. simpl in *.
  eapply same_records_invariant; [| |exact Hw]; done.
Qed.

Lemma dispatch_keeps_invariant action f :
  keeps_invariant (log (Dispatch action f)).
Proof.
  intros w Hw. eapply same_records_invariant; [| |exact Hw]; [done|].
  unfold recorded. simpl. rewrite omap_app. simpl. by rewrite app_nil_r.
Qed.

Lemma store_decision_keeps_invariant d : keeps_invariant (store_decision d).
Proof.
  intros w Hw. unfold history_invariant in *.
  unfold store_decision, bind, modify_gov, log, recorded. simpl.
  rewrite omap_app. simpl. rewrite Hw.
  apply deque_append_last_n. unfold history_maxlen. lia.
Qed.

Lemma decide_action_keeps_invariant X ns action who data c :
  methods_keep_history X ns →
  keeps_invariant (decide_action X ns action who data c).
Proof.
  intros H. unfold decide_action.
  apply bind_keeps_invariant.
  { apply call_missing_keeps_invariant. intros f Hf.
    destruct (ns_generate_decision_id ns) as [gen|] eqn:E; [|done].
    injection Hf as <-. by eapply kh_generate. }
  intros id. apply bind_keeps_invariant.
  { destruct c as [c|]; [apply ret_keeps_invariant|].
    apply call_missing_keeps_invariant. intros f Hf.
    destruct (ns_infer_context ns) as [inf|] eqn:E; [|done].
    injection Hf as <-. by eapply kh_infer. }
  intros c'. apply bind_keeps_invariant; [apply get_gov_keeps_invariant|].
  intros g. destruct (action_interceptors g !! action) as [f|].
  - apply bind_keeps_invariant; [apply dispatch_keeps_invariant|].
    intros _. destruct f as [name|n]; simpl.
    + apply call_missing_keeps_invariant. intros f Hf.
      destruct (ns_interceptor ns name) as [i|] eqn:E; [|done].
      injection Hf as <-. by eapply kh_interceptor.
    + intros w Hw. unfold lift_method.
      pose proof (kh_function X ns H n who data c' id (gov w)) as Hn.
      destruct (function_object X n who data c' id (gov w)) as [r g'].
      simpl in *. eapply same_records_invariant; [| |exact Hw]; done.
  - apply call_missing_keeps_invariant. intros f Hf.
    destruct (ns_general_ethical_evaluation ns) as [gen|] eqn:E; [|done].
    injection Hf as <-. by eapply kh_general.
Qed.

Lemma evaluate_action_keeps_invariant X ns action who data c :
  methods_keep_history X ns →
  keeps_invariant (evaluate_action X ns action who data c).
Proof.
  intros H. unfold evaluate_action.
  apply bind_keeps_invariant; [apply get_gov_keeps_invariant|].
  intros g. destruct (governance_active g); simpl.
  - apply bind_keeps_invariant; [by apply decide_action_keeps_invariant|].
    intros d. apply bind_keeps_invariant; [apply store_decision_keeps_invariant|].
    intros _. apply bind_keeps_invariant; [apply perceive_keeps_invariant|].
    intros _. apply bind_keeps_invariant; [|intros; apply ret_keeps_invariant].
    unfold learn_if_enabled.
    apply bind_keeps_invariant; [apply get_gov_keeps_invariant|].
    intros g'. destruct (learning_mode g'); [|apply ret_keeps_invariant].
    apply call_missing_keeps_invariant. intros f Hf.
    destruct (ns_learn_from_decision ns) as [l|] eqn:E; [|done].
    injection Hf as <-. by eapply kh_learn.
  - unfold evaluate_inactive. apply bind_keeps_invariant.
    { apply call_missing_keeps_invariant. intros f Hf.
      destruct (ns_generate_decision_id ns) as [gen|] eqn:E; [|done].
      injection Hf as <-. by eapply kh_generate. }
    intros id. apply bind_keeps_invariant; [apply time_keeps_invariant|].
    intros t. apply ret_keeps_invariant.
Qed.

Lemma serve_keeps_invariant X ns r w :
  methods_keep_history X ns →
  history_invariant w → history_invariant (serve X ns r w).
Proof.
  intros H Hw. destruct r as [action who data c|action m metadata| |action n];
    simpl.
  - by apply evaluate_action_keeps_invariant.
  - destruct (review_decision_world X action m metadata w)
      as (Hg & rest & Hs & Hrest).
    eapply same_records_invariant; [by rewrite Hg| |exact Hw].
    unfold recorded. rewrite Hs, omap_app.
    destruct Hrest as [-> | ->]; simpl; by rewrite app_nil_r.
  - unfold activate_governance, bind, modify_gov, time, get_gov, perceive.
    simpl. destruct (perceive_ethical_decision X _ _); exact Hw.
  - exact Hw.
Qed.

Lemma run_keeps_invariant X ns rs w :
  methods_keep_history X ns →
  history_invariant w → history_invariant (run X ns rs w).
Proof.
  intros H. revert w. induction rs as [|r rs IH]; intros w Hw; simpl; [done|].
  apply IH. by apply serve_keeps_invariant.
Qed.


Lemma with_decision_id_keeps_history X :
  (∀ n a d c i, keeps_history (function_object X n a d c i)) →
  methods_keep_history X with_decision_id.
Proof.
  intros HX. split; try (intros; discriminate); [|exact HX].
  intros f a b [= <-] g. reflexivity.
Qed.


(** Three evaluations leave three decisions, numbered 0, 1, 2. *)
Example busy_client_three :
  decision_id <$> decision_history
    (gov (run numbering with_decision_id (busy_client 3) inactive_world))
  = ["0"; "1"; "2"].
Proof. vm_compute. reflexivity. Qed.

(** After 10,001 evaluations the history holds 10,000 decisions, from the
    second, numbered 1, to the last, numbered 10000. *)
Example busy_client_evicts_oldest :
  let h := decision_history
             (gov (run numbering with_decision_id (busy_client (Z.to_nat 10001))
                     inactive_world)) in
  Z.of_nat (length h) = 10000%Z ∧
  decision_id <$> head h = Some "1" ∧
  decision_id <$> last h = Some "10000".
Proof. vm_compute. repeat split. Qed.

(** * Further properties of the module *)

(** ** The five rules on well-typed contexts *)

(** On a context that holds what its annotations announce, the two checks
    return, and each reports exactly the rules whose condition holds. *)
Lemma well_typed_checks action c :
  context_well_typed c →
  ∃ pv sec aut tr sf : bool,
    (privacy_rule_fires c ↔ pv = true) ∧
    (security_rule_fires c ↔ sec = true) ∧
    (autonomy_rule_fires c ↔ aut = true) ∧
    (transparency_rule_fires action c ↔ tr = true) ∧
    (safety_rule_fires c ↔ sf = true) ∧
    _check_violations action c
    = Ok ((if pv then ["privacy"] else []) ++
          (if sec then ["security"] else []) ++
          (if aut then ["autonomy"] else [])) ∧
    _check_concerns action c
    = Ok ((if tr then ["transparency"] else []) ++
          (if sf then ["safety"] else [])).
Proof.
  intros [_ _ [scope Hscope] Hconsent [r Hr] [p Hp] [s Hs] [sm Hsm] [v Hv]].
  unfold privacy_rule_fires, security_rule_fires, autonomy_rule_fires,
    transparency_rule_fires, safety_rule_fires,
    _check_violations, _check_concerns.
  rewrite Hs, Hsm, Hv, Hp, Hscope, Hr. simpl.
  assert (∃ k, truthy (ctx_user_consent c) = Ok k ∧
               (ctx_user_consent c ≠ VBool true ↔ k = false))
    as (k & Hk & Hkiff).
  { destruct Hconsent as [->|[[] ->]]; simpl; eexists;
      (split; [reflexivity|]); split; congruence. }
  exists (s && negb k),
    (sm && String.eqb scope "global"), (negb v && p),
    (negb v && negb (String.eqb action "system_monitor" ||
                     (String.eqb action "background_task" || false))),
    (negb r && (String.eqb scope "system" ||
                (String.eqb scope "global" || false))).
  split_and!.
  - split.
    + intros [[= ->] Hc]. apply Hkiff in Hc as ->. reflexivity.
    + intros Hx. apply andb_prop in Hx as [-> Hx].
      apply negb_true_iff in Hx. split; [reflexivity | by apply Hkiff].
  - split.
    + intros [[= ->] [= ->]]. reflexivity.
    + intros Hx. apply andb_prop in Hx as [-> Hx].
      apply String.eqb_eq in Hx as ->. done.
  - split.
    + intros [[= ->] [= ->]]. reflexivity.
    + intros Hx. apply andb_prop in Hx as [Hx ->].
      apply negb_true_iff in Hx as ->. done.
  - split.
    + intros [[= ->] [H1 H2]]. simpl.
      apply String.eqb_neq in H1, H2. rewrite H1, H2. reflexivity.
    + intros Hx. apply andb_prop in Hx as [Hv' Hx].
      apply negb_true_iff in Hv' as ->. apply negb_true_iff in Hx.
      apply orb_false_iff in Hx as [H1 Hx].
      apply orb_false_iff in Hx as [H2 _].
      split; [reflexivity|]. split; by apply String.eqb_neq.
  - split.
    + intros [[= ->] [[= ->] | [= ->]]]; reflexivity.
    + intros Hx. apply andb_prop in Hx as [Hr' Hx].
      apply negb_true_iff in Hr' as ->. split; [reflexivity|].
      apply orb_prop in Hx as [Hx|Hx]; [left|right].
      * apply String.eqb_eq in Hx as ->. reflexivity.
      * apply orb_prop in Hx as [Hx|Hx]; [|done].
        apply String.eqb_eq in Hx as ->. reflexivity.
  - destruct s; simpl; rewrite ?Hk; simpl;
      destruct k, sm, (String.eqb scope "global"), v, p; reflexivity.
  - destruct v, r, (String.eqb action "system_monitor"),
      (String.eqb action "background_task"),
      (String.eqb scope "system"), (String.eqb scope "global"); reflexivity.
Qed.

(** What [_evaluate_action] returns, given what the two checks return. *)
Lemma general_evaluation_outcome X action c w vs cs :
  _check_violations action c = Ok vs →
  _check_concerns action c = Ok cs →
  ∃ d w', _evaluate_action X action c w = (Ok d, w') ∧
    action_type d = action ∧ actor d = ctx_actor c ∧ context d = c ∧
    restrictions d = [] ∧ escalation_reason d = None ∧
    match vs, cs with
    | _ :: _, _ =>
        decision d = BLOCK ∧ severity d = VIOLATION ∧
        confidence d = (95 # 100)%Q ∧ affected_principles d = vs ∧
        monitoring_requirements d = []
    | [], _ :: _ =>
        decision d = MONITOR ∧ severity d = CONCERN ∧
        confidence d = (85 # 100)%Q ∧ affected_principles d = cs ∧
        monitoring_requirements d = ["increased_logging"; "user_notification"]
    | [], [] =>
        decision d = ALLOW ∧ severity d = INFO ∧
        confidence d = (90 # 100)%Q ∧ affected_principles d = [] ∧
        monitoring_requirements d = []
    end.
Proof.
  intros Hv Hc.
  unfold _evaluate_action, call, bind, time, log, lift_result, ret. simpl.
  rewrite Hv. simpl. destruct vs as [|v vs]; simpl.
  - rewrite Hc. simpl. destruct cs as [|k cs]; simpl;
      eexists _, _; (split; [reflexivity|]); simpl; done.
  - eexists _, _. split; [reflexivity|]. simpl. done.
Qed.

(** Membership of a string literal in a list of string literals. *)
Ltac literal_membership :=
  split; intros ?;
  first [ done | compute_done
        | exfalso;
          match goal with H : _ ∈ _ |- _ => revert H; compute_done end ].

(** X1. On a context that holds what its annotations announce and that
    violates nothing, a concern is enough for [monitor]/[concern] with
    confidence 0.85 and the two monitoring requirements; the principles
    reported are exactly the concern rules whose condition holds. *)
Theorem concerns_are_monitored X (action : string) (c : EthicalContext)
  (w : World) :
  context_well_typed c →
  ¬ privacy_rule_fires c → ¬ security_rule_fires c → ¬ autonomy_rule_fires c →
  transparency_rule_fires action c ∨ safety_rule_fires c →
  ∃ d w', _evaluate_action X action c w = (Ok d, w') ∧
    decision d = MONITOR ∧ severity d = CONCERN ∧
    confidence d = (85 # 100)%Q ∧
    monitoring_requirements d = ["increased_logging"; "user_notification"] ∧
    ("transparency" ∈ affected_principles d
     ↔ transparency_rule_fires action c) ∧
    ("safety" ∈ affected_principles d ↔ safety_rule_fires c).
Proof.
  intros Hwt Hp Hs Ha Hconcern.
  destruct (well_typed_checks action c Hwt)
    as (pv & sec & aut & tr & sf & Hpv & Hsec & Haut & Htr & Hsf & Hcv & Hcc).
  assert (pv = false) as -> by (destruct pv; [exfalso; by apply Hp, Hpv | done]).
  assert (sec = false) as -> by (destruct sec; [exfalso; by apply Hs, Hsec | done]).
  assert (aut = false) as -> by (destruct aut; [exfalso; by apply Ha, Haut | done]).
  destruct (general_evaluation_outcome X action c w _ _ Hcv Hcc)
    as (d & w' & Hrun & _ & _ & _ & _ & _ & Hd).
  exists d, w'. split; [exact Hrun|]. rewrite Htr, Hsf in *. simpl in Hd.
  destruct tr, sf; simpl in Hd.
  - destruct Hd as (-> & -> & -> & -> & ->). split_and!; try done; literal_membership.
  - destruct Hd as (-> & -> & -> & -> & ->). split_and!; try done; literal_membership.
  - destruct Hd as (-> & -> & -> & -> & ->). split_and!; try done; literal_membership.
  - destruct Hconcern; discriminate.
Qed.

Lemma review_context_well_typed_sample :
  context_well_typed hidden_context ∧
  context_well_typed global_modification_context.
Proof. split; split; vm_compute; eauto. Qed.

Lemma concerns_are_monitored_witness :
  ∃ d w', _evaluate_action quiet "user_interact" hidden_context inactive_world
          = (Ok d, w') ∧
    decision d = MONITOR ∧ severity d = CONCERN ∧
    confidence d = (85 # 100)%Q ∧
    monitoring_requirements d = ["increased_logging"; "user_notification"] ∧
    ("transparency" ∈ affected_principles d
     ↔ transparency_rule_fires "user_interact" hidden_context) ∧
    ("safety" ∈ affected_principles d ↔ safety_rule_fires hidden_context).
Proof.
  apply concerns_are_monitored.
  - apply review_context_well_typed_sample.
  - intros [H _]. discriminate H.
  - intros [H _]. discriminate H.
  - intros [_ H]. discriminate H.
  - left. split; [reflexivity|]. split; discriminate.
Defined.

(** X2. On a context that holds what its annotations announce, the general
    evaluation returns, and the five rules decide it: [block] exactly when a
    violation rule holds, [monitor] exactly when none does and a concern rule
    holds, [allow] exactly when no rule holds; a [block] is a [violation] of
    confidence 0.95 that names exactly the violated principles, and an
    [allow] is an [info] of confidence 0.90 with no principle. *)
Theorem general_evaluation_decides_by_rules X (action : string)
  (c : EthicalContext) (w : World) :
  context_well_typed c →
  ∃ d w', _evaluate_action X action c w = (Ok d, w') ∧
    (decision d = BLOCK ↔
     privacy_rule_fires c ∨ security_rule_fires c ∨ autonomy_rule_fires c) ∧
    (decision d = MONITOR ↔
     ¬ (privacy_rule_fires c ∨ security_rule_fires c ∨ autonomy_rule_fires c) ∧
     (transparency_rule_fires action c ∨ safety_rule_fires c)) ∧
    (decision d = ALLOW ↔
     ¬ (privacy_rule_fires c ∨ security_rule_fires c ∨ autonomy_rule_fires c) ∧
     ¬ (transparency_rule_fires action c ∨ safety_rule_fires c)) ∧
    (decision d = BLOCK →
     severity d = VIOLATION ∧ confidence d = (95 # 100)%Q ∧
     ("privacy" ∈ affected_principles d ↔ privacy_rule_fires c) ∧
     ("security" ∈ affected_principles d ↔ security_rule_fires c) ∧
     ("autonomy" ∈ affected_principles d ↔ autonomy_rule_fires c)) ∧
    (decision d = ALLOW →
     severity d = INFO ∧ confidence d = (90 # 100)%Q ∧
     affected_principles d = []).
Proof.
  intros Hwt.
  destruct (well_typed_checks action c Hwt)
    as (pv & sec & aut & tr & sf & Hpv & Hsec & Haut & Htr & Hsf & Hcv & Hcc).
  destruct (general_evaluation_outcome X action c w _ _ Hcv Hcc)
    as (d & w' & Hrun & _ & _ & _ & _ & _ & Hd).
  exists d, w'. split; [exact Hrun|].
  rewrite Hpv, Hsec, Haut, Htr, Hsf. clear Hpv Hsec Haut Htr Hsf Hcv Hcc Hrun.
  destruct pv, sec, aut, tr, sf; simpl in Hd;
    destruct Hd as (Hdec & Hsev & Hconf & Haff & _);
    rewrite Hdec, Hsev, Hconf, Haff;
    split_and!; try (intuition congruence);
    intros _; split_and!; try done; literal_membership.
Qed.

Lemma general_evaluation_decides_by_rules_witness :
  ∃ d w', _evaluate_action quiet "system_modify" global_modification_context
            inactive_world = (Ok d, w') ∧ decision d = BLOCK ∧
    affected_principles d = ["security"].
Proof.
  destruct (general_evaluation_decides_by_rules quiet "system_modify"
              global_modification_context inactive_world
              (proj2 review_context_well_typed_sample))
    as (d & w' & Hrun & Hblock & _).
  exists d, w'. split; [exact Hrun|]. split.
  - apply Hblock. right. left. split; reflexivity.
  - vm_compute in Hrun. injection Hrun as <- _. reflexivity.
Defined.

(** ** What every reviewed decision satisfies *)

(** X3. Whatever the mapping holds, the decision [review_decision] returns
    is for the action asked and the persona given; it is [allow], [monitor]
    or [block], never [restrict] or [escalate]; a [block] is a [violation] or
    [critical], a [monitor] is a [concern], an [allow] is an [info] with no
    affected principle; it carries no restriction and a confidence between 0
    and 1. *)
Theorem review_decision_invariants X (action : string)
  (m : gmap string PyVal) (metadata : option (gmap string PyVal)) (w : World) :
  ∃ d w', review_decision X action (ADict m) metadata w = (Ok d, w') ∧
    action_type d = action ∧
    actor d = dict_get m "persona" (VStr "unknown") ∧
    (decision d = ALLOW ∨ decision d = MONITOR ∨ decision d = BLOCK) ∧
    (decision d = BLOCK → severity d = VIOLATION ∨ severity d = CRITICAL) ∧
    (decision d = MONITOR → severity d = CONCERN) ∧
    (decision d = ALLOW → severity d = INFO ∧ affected_principles d = []) ∧
    restrictions d = [] ∧
    (0 <= confidence d)%Q ∧ (confidence d <= 1)%Q.
Proof.
  unfold review_decision, try_except, review_try, review_except,
    _evaluate_action, call, perceive, bind, time, log, lift_result, ret.
  simpl.
  destruct (_check_violations action _) as [[|v vs]|e]; simpl.
  - destruct (_check_concerns action _) as [[|k ks]|e]; simpl;
      try destruct (perceive_ethical_decision X _ _); simpl;
      eexists _, _; (split; [reflexivity|]); simpl;
      split_and!; try done; try (intros; discriminate); eauto.
  - destruct (perceive_ethical_decision X _ _); simpl;
      eexists _, _; (split; [reflexivity|]); simpl;
      split_and!; try done; try (intros; discriminate); eauto.
  - eexists _, _. split; [reflexivity|]. simpl.
    split_and!; try done; try (intros; discriminate); eauto.
Qed.

(** ** The keys of the mapping *)

Lemma review_context_same_keys action m1 m2 metadata :
  Forall (λ k, m1 !! k = m2 !! k) review_keys →
  dict_context action m1 metadata = dict_context action m2 metadata.
Proof.
  intros H. unfold review_keys in H. repeat rewrite Forall_cons in H.
  destruct H as (H1 & H2 & H3 & H4 & H5 & H6 & H7 & H8 & H9 & _).
  unfold dict_context, review_context, arg_get, dict_get. simpl.
  by rewrite H1, H2, H3, H4, H5, H6, H7, H8, H9.
Qed.

(** X4. [review_decision] reads nine keys of the mapping, ["persona"] and
    ["sensitive_data"] among them: two mappings that agree on these keys
    give the same decision and the same effects, whatever else they hold. *)
Theorem review_decision_reads_nine_keys X (action : string)
  (m1 m2 : gmap string PyVal) (metadata : option (gmap string PyVal))
  (w : World) :
  Forall (λ k, m1 !! k = m2 !! k) review_keys →
  review_decision X action (ADict m1) metadata w
  = review_decision X action (ADict m2) metadata w.
Proof.
  intros H. pose proof (review_context_same_keys action m1 m2 metadata H) as Hc.
  unfold review_keys in H. rewrite Forall_cons in H. destruct H as [Hp _].
  unfold review_decision, try_except, review_try, review_except.
  rewrite !review_context_dict, Hc. unfold arg_get, dict_get.
  rewrite Hp. reflexivity.
Qed.

(** The names of the dataclass fields are not among the keys: a mapping
    that says [sensitive_data_involved] and [actor] is reviewed as the empty
    mapping is, and allowed. *)
Lemma review_decision_reads_nine_keys_witness :
  review_decision quiet "data_access" (ADict field_named) None inactive_world
  = review_decision quiet "data_access" (ADict ∅) None inactive_world ∧
  decision <$> match (review_decision quiet "data_access"
                        (ADict field_named) None inactive_world).1 with
               | Ok d => Some d | Raise _ => None end = Some ALLOW.
Proof.
  split.
  - apply review_decision_reads_nine_keys. repeat constructor.
  - vm_compute. reflexivity.
Defined.

(** ** Truth tests on values of any type *)

(** X5. Whatever the values in the context, when [_check_violations]
    returns, it reports the privacy violation exactly when the truth test of
    [sensitive_data_involved] gives true and that of [user_consent] gives
    false: every value that tests true, a non-empty string or a non-zero
    number included, counts as consent. *)
Theorem privacy_follows_truth_tests (action : string) (c : EthicalContext)
  (vs : list string) :
  _check_violations action c = Ok vs →
  ("privacy" ∈ vs ↔
   truthy (ctx_sensitive_data_involved c) = Ok true ∧
   truthy (ctx_user_consent c) = Ok false).
Proof.
  unfold _check_violations. simpl.
  destruct (truthy (ctx_sensitive_data_involved c)) as [[]|]; simpl;
    [destruct (truthy (ctx_user_consent c)) as [[]|]; simpl|..];
    destruct (truthy (ctx_system_modification c)) as [[]|]; simpl;
    destruct (eq_str (ctx_scope c) "global"); simpl;
    destruct (truthy (ctx_user_visible c)) as [[]|]; simpl;
    try (destruct (truthy (ctx_persistent c)) as [[]|]; simpl);
    intros [= <-];
    (split; [intros Hin; first [done | exfalso; revert Hin; compute_done]
            | intros [? ?]; first [discriminate | compute_done]]).
Qed.

(** A context in which the consent given is the string "no". *)
Lemma privacy_follows_truth_tests_witness :
  _check_violations "data_access"
    (dict_context "data_access"
       {[ "sensitive_data" := VBool true; "user_consent" := VStr "no" ]} None)
  = Ok [] ∧
  ("privacy" ∈ ([] : list string) ↔
   truthy (ctx_sensitive_data_involved
             (dict_context "data_access"
                {[ "sensitive_data" := VBool true;
                   "user_consent" := VStr "no" ]} None)) = Ok true ∧
   truthy (ctx_user_consent
             (dict_context "data_access"
                {[ "sensitive_data" := VBool true;
                   "user_consent" := VStr "no" ]} None)) = Ok false).
Proof.
  split; [vm_compute; reflexivity|].
  apply (privacy_follows_truth_tests "data_access"). vm_compute. reflexivity.
Defined.

(** X6. For the action types ["system_monitor"] and ["background_task"],
    [_check_concerns] never reports a transparency concern, whatever the
    context holds. *)
Theorem monitoring_actions_are_exempt (action : string) (c : EthicalContext)
  (cs : list string) :
  action = "system_monitor" ∨ action = "background_task" →
  _check_concerns action c = Ok cs →
  "transparency" ∉ cs.
Proof.
  intros Hex. unfold _check_concerns. simpl.
  assert (String.eqb action "system_monitor"
          || (String.eqb action "background_task" || false) = true) as ->.
  { destruct Hex as [-> | ->]; reflexivity. }
  destruct (truthy (ctx_user_visible c)) as [vis|]; simpl; [|discriminate].
  rewrite andb_false_r. simpl.
  destruct (truthy (ctx_reversible c)) as [rev|]; simpl; [|discriminate].
  destruct rev, (eq_str (ctx_scope c) "system"),
    (eq_str (ctx_scope c) "global"); simpl;
    intros [= <-] Hin; revert Hin; compute_done.
Qed.

Lemma monitoring_actions_are_exempt_witness :
  _check_concerns "background_task" hidden_context = Ok [] ∧
  "transparency" ∉ ([] : list string).
Proof.
  split; [vm_compute; reflexivity|].
  apply (monitoring_actions_are_exempt "background_task" hidden_context).
  - right. reflexivity.
  - vm_compute. reflexivity.
Defined.

(** ** Decision ids of the general evaluation *)

Lemma general_decision_id X action c w d w' :
  _evaluate_action X action c w = (Ok d, w') →
  decision_id d
  = ("decision_" ++
     str_of_int (int_of_float (time_time X (clock (env w)))) ++ "_" ++
     str_of_int (hash X action `mod` 10000)%Z)%string.
Proof.
  unfold _evaluate_action, call, bind, time, log, lift_result, ret. simpl.
  destruct (_check_violations action c) as [[|v vs]|e]; simpl;
    [destruct (_check_concerns action c) as [[|k ks]|e']; simpl|..];
    intros [= <- _]; reflexivity || discriminate.
Qed.

(** X7. The decision id of the general evaluation is made of the second of
    the clock and of the action type alone: two general evaluations of one
    action type within the same second give the same id, whatever the
    contexts and the decisions are. *)
Theorem general_decision_ids_collide X (action : string)
  (c1 c2 : EthicalContext) (w1 w2 : World) (d1 d2 : EthicalDecision)
  (w1' w2' : World) :
  _evaluate_action X action c1 w1 = (Ok d1, w1') →
  _evaluate_action X action c2 w2 = (Ok d2, w2') →
  int_of_float (time_time X (clock (env w1)))
  = int_of_float (time_time X (clock (env w2))) →
  decision_id d1 = decision_id d2.
Proof.
  intros H1 H2 Hsec.
  rewrite (general_decision_id _ _ _ _ _ _ H1),
    (general_decision_id _ _ _ _ _ _ H2), Hsec.
  reflexivity.
Qed.

(** A blocked and an allowed evaluation, a tenth of a second apart. *)
Lemma general_decision_ids_collide_witness :
  ∃ d1 d2 w1' w2',
    _evaluate_action subsecond "data_access" sensitive_context inactive_world
    = (Ok d1, w1') ∧
    _evaluate_action subsecond "data_access"
      (default_context "data_access" (VStr "agent")) later_world
    = (Ok d2, w2') ∧
    decision d1 = BLOCK ∧ decision d2 = ALLOW ∧
    timestamp d1 ≠ timestamp d2 ∧
    decision_id d1 = decision_id d2.
Proof.
  eexists _, _, _, _.
  split; [vm_compute; reflexivity|]. split; [vm_compute; reflexivity|].
  split; [reflexivity|]. split; [reflexivity|]. split; [discriminate|].
  eapply (general_decision_ids_collide subsecond "data_access"
            sensitive_context (default_context "data_access" (VStr "agent"))
            inactive_world later_world);
    [vm_compute; reflexivity | vm_compute; reflexivity | reflexivity].
Defined.

(** ** An attribute and the stored decisions, along a run *)

Section attribute_invariant.
Context {T : Type} (attr : Governor → T).
Context (P : T → list EthicalDecision → Prop).
Context (X : Externals) (ns : Namespace).
Hypothesis methods : methods_keep attr X ns.
Hypothesis store : ∀ d, computation_keeps attr P (store_decision d).
Hypothesis register : ∀ a f g ds,
  P (attr g) ds → P (attr (register_interceptor a f g)) ds.
Hypothesis activate : ∀ g ds,
  P (attr g) ds → P (attr (set_governance_active true g)) ds.

Lemma same_attribute_holds (w w' : World) :
  attr (gov w') = attr (gov w) → recorded w' = recorded w →
  attribute_holds attr P w → attribute_holds attr P w'.
Proof. unfold attribute_holds. intros -> ->. done. Qed.

Lemma bind_keeps {A B} (c : M A) (k : A → M B) :
  computation_keeps attr P c → (∀ a, computation_keeps attr P (k a)) →
  computation_keeps attr P (bind c k).
Proof.
  intros Hc Hk w Hw. unfold bind. specialize (Hc w Hw).
  destruct (c w) as [[a|e] w1]; simpl in *; [by apply Hk | done].
Qed.

Lemma unchanged_keeps {A} (c : M A) :
  (∀ w, attr (gov (c w).2) = attr (gov w) ∧ recorded (c w).2 = recorded w) →
  computation_keeps attr P c.
Proof.
  intros H w Hw. destruct (H w). by eapply same_attribute_holds.
Qed.

Lemma call_missing_keeps {A} name (m : option (Method A)) :
  (∀ f, m = Some f → method_keeps attr f) →
  computation_keeps attr P (call_missing name m).
Proof.
  intros Hm. apply unchanged_keeps. intros w.
  destruct m as [f|]; simpl; [|done].
  unfold lift_method. specialize (Hm f eq_refl (gov w)).
  destruct (f (gov w)) as [r g]. simpl in *. done.
Qed.

Lemma dispatch_keeps action f :
  computation_keeps attr P (log (Dispatch action f)).
Proof.
  apply unchanged_keeps. intros w. split; [done|].
  unfold recorded. simpl. rewrite omap_app. simpl. by rewrite app_nil_r.
Qed.

Lemma perceive_keeps ev : computation_keeps attr P (perceive X ev).
Proof.
  apply unchanged_keeps. intros w. unfold perceive.
  destruct (perceive_ethical_decision X _ _); done.
Qed.

Lemma decide_action_keeps action who data c :
  computation_keeps attr P (decide_action X ns action who data c).
Proof.
  unfold decide_action. apply bind_keeps.
  { apply call_missing_keeps. intros f Hf.
    destruct (ns_generate_decision_id ns) as [gen|] eqn:E; [|done].
    injection Hf as <-. by eapply mk_generate. }
  intros id. apply bind_keeps.
  { destruct c as [c|]; [by apply unchanged_keeps|].
    apply call_missing_keeps. intros f Hf.
    destruct (ns_infer_context ns) as [inf|] eqn:E; [|done].
    injection Hf as <-. by eapply mk_infer. }
  intros c'. apply bind_keeps; [by apply unchanged_keeps|].
  intros g. destruct (action_interceptors g !! action) as [f|].
  - apply bind_keeps; [apply dispatch_keeps|].
    intros _. destruct f as [name|n]; simpl.
    + apply call_missing_keeps. intros f Hf.
      destruct (ns_interceptor ns name) as [i|] eqn:E; [|done].
      injection Hf as <-. by eapply mk_interceptor.
    + apply unchanged_keeps. intros w. unfold lift_method.
      pose proof (mk_function attr X ns methods n who data c' id (gov w)) as Hn.
      destruct (function_object X n who data c' id (gov w)) as [r g'].
      simpl in *. done.
  - apply call_missing_keeps. intros f Hf.
    destruct (ns_general_ethical_evaluation ns) as [gen|] eqn:E; [|done].
    injection Hf as <-. by eapply mk_general.
Qed.

Lemma evaluate_action_keeps action who data c :
  computation_keeps attr P (evaluate_action X ns action who data c).
Proof.
  unfold evaluate_action.
  apply bind_keeps; [by apply unchanged_keeps|].
  intros g. destruct (governance_active g); simpl.
  - apply bind_keeps; [apply decide_action_keeps|].
    intros d. apply bind_keeps; [apply store|].
    intros _. apply bind_keeps; [apply perceive_keeps|].
    intros _. apply bind_keeps; [|intros; by apply unchanged_keeps].
    unfold learn_if_enabled.
    apply bind_keeps; [by apply unchanged_keeps|].
    intros g'. destruct (learning_mode g'); [|by apply unchanged_keeps].
    apply call_missing_keeps. intros f Hf.
    destruct (ns_learn_from_decision ns) as [l|] eqn:E; [|done].
    injection Hf as <-. by eapply mk_learn.
  - unfold evaluate_inactive. apply bind_keeps.
    { apply call_missing_keeps. intros f Hf.
      destruct (ns_generate_decision_id ns) as [gen|] eqn:E; [|done].
      injection Hf as <-. by eapply mk_generate. }
    intros id.
    apply bind_keeps; [by apply unchanged_keeps|].
    intros t. by apply unchanged_keeps.
Qed.

Lemma serve_keeps r w :
  attribute_holds attr P w → attribute_holds attr P (serve X ns r w).
Proof.
  intros Hw.
  destruct r as [action who data c|action m metadata| |action n]; simpl.
  - by apply evaluate_action_keeps.
  - destruct (review_decision_world X action m metadata w)
      as (Hg & rest & Hs & Hrest).
    eapply same_attribute_holds; [by rewrite Hg| |exact Hw].
    unfold recorded. rewrite Hs, omap_app.
    destruct Hrest as [-> | ->]; simpl; by rewrite app_nil_r.
  - unfold activate_governance, bind, modify_gov, time, get_gov, perceive.
    simpl. destruct (perceive_ethical_decision X _ _); by apply activate.
  - by apply register.
Qed.

Lemma run_keeps rs w :
  attribute_holds attr P w → attribute_holds attr P (run X ns rs w).
Proof.
  revert w. induction rs as [|r rs IH]; intros w Hw; simpl; [done|].
  apply IH. by apply serve_keeps.
Qed.
End attribute_invariant.

Lemma with_decision_id_keeps {T} (attr : Governor → T) X :
  (∀ n a d c i, method_keeps attr (function_object X n a d c i)) →
  methods_keep attr X with_decision_id.
Proof.
  intros HX. split; try (intros; discriminate); [|exact HX].
  intros f a b [= <-] g. reflexivity.
Qed.

(** ** The metrics *)

Lemma tally_snoc ds d :
  tally (ds ++ [d]) = count_decision (decision d) (tally ds).
Proof. unfold tally. by rewrite foldl_app. Qed.

Lemma count_kind_snoc k ds d :
  count_kind k (ds ++ [d])
  = (count_kind k ds + if decide (decision d = k) then 1 else 0)%Z.
Proof.
  unfold count_kind. rewrite filter_app, length_app, filter_cons, filter_nil.
  destruct (decide (decision d = k)); simpl; lia.
Qed.

Lemma tally_counts ds :
  total_decisions (tally ds) = Z.of_nat (length ds) ∧
  violations_prevented (tally ds) = count_kind BLOCK ds ∧
  restrictions_imposed (tally ds) = count_kind RESTRICT ds ∧
  escalations_required (tally ds) = count_kind ESCALATE ds ∧
  learning_adjustments (tally ds) = 0%Z.
Proof.
  induction ds as [|d ds IH] using rev_ind; [done|].
  destruct IH as (Ht & Hv & Hr & He & Hl).
  rewrite tally_snoc, !count_kind_snoc, length_app. simpl.
  unfold count_decision.
  destruct (decision d); simpl; repeat case_decide; try done;
    split_and!; lia.
Qed.

Lemma store_decision_keeps_tally d :
  computation_keeps ethical_metrics (λ m ds, m = tally ds) (store_decision d).
Proof.
  intros w Hw. unfold attribute_holds in *.
  unfold store_decision, bind, modify_gov, log, recorded. simpl.
  rewrite omap_app. simpl. fold (recorded w). by rewrite tally_snoc, <- Hw.
Qed.

(** X8. Along any run of requests, from counters that agree with the
    decisions stored (the zeroed counters of a new governor do),
    [total_decisions] is the number of decisions stored,
    [violations_prevented], [restrictions_imposed] and
    [escalations_required] are the numbers of stored [block], [restrict] and
    [escalate] decisions, and [learning_adjustments] stays 0: the module
    itself never counts a learning adjustment.  The methods that are not in
    the module are taken not to write to the counters. *)
Theorem metrics_count_stored_decisions X ns (rs : list Request) (w : World) :
  methods_keep ethical_metrics X ns →
  ethical_metrics (gov w) = tally (recorded w) →
  total_decisions (ethical_metrics (gov (run X ns rs w)))
    = Z.of_nat (length (recorded (run X ns rs w))) ∧
  violations_prevented (ethical_metrics (gov (run X ns rs w)))
    = count_kind BLOCK (recorded (run X ns rs w)) ∧
  restrictions_imposed (ethical_metrics (gov (run X ns rs w)))
    = count_kind RESTRICT (recorded (run X ns rs w)) ∧
  escalations_required (ethical_metrics (gov (run X ns rs w)))
    = count_kind ESCALATE (recorded (run X ns rs w)) ∧
  learning_adjustments (ethical_metrics (gov (run X ns rs w))) = 0%Z.
Proof.
  intros Hm Hw.
  pose proof (run_keeps ethical_metrics (λ m ds, m = tally ds) X ns Hm
                store_decision_keeps_tally
                (λ _ _ _ _ H, H) (λ _ _ H, H) rs w Hw) as Hrun.
  unfold attribute_holds in Hrun. rewrite Hrun. apply tally_counts.
Qed.

Lemma metrics_count_stored_decisions_witness :
  total_decisions
    (ethical_metrics (gov (run numbering with_decision_id (busy_client 3)
                             inactive_world))) = 3%Z.
Proof.
  destruct (metrics_count_stored_decisions numbering with_decision_id
              (busy_client 3) inactive_world) as (Ht & _).
  - apply with_decision_id_keeps. intros n a d c i g. reflexivity.
  - reflexivity.
  - rewrite Ht. vm_compute. reflexivity.
Defined.

(** X9. Along any run from a new governor, the history holds as many
    decisions as were counted, up to 10,000:
    [len(decision_history) = min(10000, total_decisions)]. *)
Theorem history_length_follows_total X ns (rs : list Request) (w : World) :
  methods_keep_history X ns →
  methods_keep ethical_metrics X ns →
  history_invariant w →
  ethical_metrics (gov w) = tally (recorded w) →
  Z.of_nat (length (decision_history (gov (run X ns rs w))))
  = Z.min 10000 (total_decisions (ethical_metrics (gov (run X ns rs w)))).
Proof.
  intros Hh Hm Hw Ht.
  pose proof (run_keeps_invariant X ns rs w Hh Hw) as Hinv.
  pose proof (run_keeps ethical_metrics (λ m ds, m = tally ds) X ns Hm
                store_decision_keeps_tally
                (λ _ _ _ _ H, H) (λ _ _ H, H) rs w Ht) as Hrun.
  unfold attribute_holds in Hrun. unfold history_invariant in Hinv.
  rewrite Hrun, Hinv, (proj1 (tally_counts _)).
  apply length_last_n. unfold history_maxlen. lia.
Qed.

Lemma history_length_follows_total_witness :
  Z.of_nat (length (decision_history
                      (gov (run numbering with_decision_id (busy_client 3)
                              inactive_world))))
  = Z.min 10000
      (total_decisions
         (ethical_metrics (gov (run numbering with_decision_id (busy_client 3)
                                  inactive_world)))).
Proof.
  apply history_length_follows_total.
  - apply with_decision_id_keeps_history. intros n a d c i g. reflexivity.
  - apply with_decision_id_keeps. intros n a d c i g. reflexivity.
  - reflexivity.
  - reflexivity.
Defined.

(** ** Activation *)

(** X10. [activate_governance] sets [governance_active] before it calls the
    sink, so the governor is active afterwards even when the sink raises;
    and no request turns it off again: after an activation, the governor is
    active along any run.  The methods that are not in the module are taken
    not to write to [governance_active]. *)
Theorem activation_is_permanent X ns (rs : list Request) (w : World) :
  methods_keep governance_active X ns →
  governance_active (gov (serve X ns Activate w)) = true ∧
  governance_active (gov (run X ns (Activate :: rs) w)) = true.
Proof.
  intros Hm.
  assert (Hact : governance_active (gov (serve X ns Activate w)) = true).
  { simpl. unfold activate_governance, bind, modify_gov, time, get_gov,
      perceive. simpl.
    destruct (perceive_ethical_decision X _ _); reflexivity. }
  split; [exact Hact|]. simpl.
  apply (run_keeps governance_active (λ b _, b = true) X ns Hm).
  - intros d w' Hw'. exact Hw'.
  - intros a f g ds H. exact H.
  - reflexivity.
  - exact Hact.
Qed.

Lemma activation_is_permanent_witness :
  governance_active (gov (serve sink_down with_decision_id Activate
                            inactive_world)) = true ∧
  governance_active
    (gov (run sink_down with_decision_id (busy_client 3) inactive_world))
  = true.
Proof.
  apply (activation_is_permanent sink_down with_decision_id
           (Register "custom_action" 0 ::
            replicate 3 (Evaluate "custom_action" "agent" ∅
                           (Some (default_context "custom_action"
                                    (VStr "agent")))))
           inactive_world).
  apply with_decision_id_keeps. intros n a d c i g. reflexivity.
Defined.

(** X11. Whatever the profile, the activation of a newly initialised
    governor hands the sink one event, of type ["governance_activation"] and
    weight ["high"], that announces nine active principles, strictness 0.7
    and learning mode on. *)
Theorem new_governor_announces_nine_principles X
  (philosophy : gmap string (list string)) (e : Env) :
  emitted (env (activate_governance X
                  {| gov := init_attributes philosophy; env := e |}).2)
  = emitted e ++
    [ {| ev_type := "governance_activation";
         ev_data := [("timestamp",
                      VStr (isoformat X (time_time X (clock e))));
                     ("strictness_level", VFloat (7 # 10)%Q);
                     ("active_principles", VInt 9);
                     ("learning_mode", VBool true)];
         ev_weight := "high" |} ].
Proof.
  unfold activate_governance, bind, modify_gov, time, get_gov, perceive.
  cbn -[_initialize_principle_weights size].
  rewrite initialize_principle_weights_defaults.
  change (size (list_to_map default_weights : gmap string Q)) with 9%nat.
  destruct (perceive_ethical_decision X _ _); reflexivity.
Qed.

(** ** Interceptors *)

Lemma bind_leaves_env {A B} (c : M A) (k : A → M B) :
  leaves_env c → (∀ a, leaves_env (k a)) → leaves_env (bind c k).
Proof.
  intros Hc Hk w. unfold bind. specialize (Hc w).
  destruct (c w) as [[a|e] w1]; simpl in *; [|done].
  destruct (Hk a w1) as (-> & -> & ->). done.
Qed.

Lemma call_missing_leaves_env {A} name (m : option (Method A)) :
  leaves_env (call_missing name m).
Proof.
  intros w. destruct m as [f|]; simpl; [|done].
  unfold lift_method. destruct (f (gov w)) as [r g]. done.
Qed.

(** What [decide_action] does outside the governor object: it reads no
    clock, hands nothing to the sink and stores nothing. *)
Lemma decide_action_leaves_env X ns action who data c :
  leaves_env (decide_action X ns action who data c).
Proof.
  unfold decide_action.
  apply bind_leaves_env; [apply call_missing_leaves_env|]. intros id.
  apply bind_leaves_env.
  { destruct c; [done | apply call_missing_leaves_env]. }
  intros c'. apply bind_leaves_env; [done|]. intros g.
  destruct (action_interceptors g !! action) as [f|];
    [|apply call_missing_leaves_env].
  apply bind_leaves_env.
  { intros w. unfold recorded. simpl. rewrite omap_app. simpl.
    by rewrite app_nil_r. }
  intros _. destruct f as [name|n]; simpl; [apply call_missing_leaves_env|].
  intros w. unfold lift_method.
  destruct (function_object X n who data c' id (gov w)) as [r g']. done.
Qed.

Lemma bind_unfold {A B} (c : M A) (k : A → M B) (w : World) :
  bind c k w = match c w with
               | (Ok a, w') => k a w'
               | (Raise e, w') => (Raise e, w')
               end.
Proof. reflexivity. Qed.

Lemma evaluate_action_unfold X ns action who data c w :
  evaluate_action X ns action who data c w
  = if governance_active (gov w)
    then (d <- decide_action X ns action who data c;;
          store_decision d;; perceive X (decision_event d);;
          learn_if_enabled ns d;; ret d) w
    else evaluate_inactive X ns action who c w.
Proof.
  unfold evaluate_action. rewrite bind_unfold. simpl.
  by destruct (governance_active (gov w)).
Qed.

(** After the decision is made, the rest of [evaluate_action] takes one
    step, the storing of the decision, and hands the sink one event. *)
Lemma after_decision_env X ns d w :
  steps (env ((store_decision d;; perceive X (decision_event d);;
               learn_if_enabled ns d;; ret d) w).2)
  = steps (env w) ++ [Append d] ∧
  emitted (env ((store_decision d;; perceive X (decision_event d);;
                 learn_if_enabled ns d;; ret d) w).2)
  = emitted (env w) ++ [decision_event d].
Proof.
  unfold store_decision, perceive, learn_if_enabled, call_missing,
    lift_method, bind, modify_gov, log, get_gov, ret, raise. simpl.
  destruct (perceive_ethical_decision X _ _); simpl; [done|].
  destruct (learning_mode _); simpl; [|done].
  destruct (ns_learn_from_decision ns) as [l|]; simpl; [|done].
  destruct (l d _) as [[[]|e] g]; done.
Qed.

(** X12. A registered interceptor takes precedence: when the registry has
    an entry for the action type, the outcome and the effects of
    [evaluate_action] are the same whatever [_general_ethical_evaluation]
    is, or if there is none; the general evaluation is not consulted.
    [_generate_decision_id] and [_infer_context] are taken not to write to
    the registry. *)
Theorem registered_interceptor_takes_precedence X ns general
  (action who : string) (data : gmap string PyVal)
  (c : option EthicalContext) (w : World) :
  is_Some (action_interceptors (gov w) !! action) →
  (∀ f, ns_generate_decision_id ns = Some f →
        method_keeps action_interceptors (f action who)) →
  (∀ f, ns_infer_context ns = Some f →
        method_keeps action_interceptors (f action who data)) →
  evaluate_action X (with_general general ns) action who data c w
  = evaluate_action X ns action who data c w.
Proof.
  intros [f Hf] Hgen Hinf. rewrite !evaluate_action_unfold.
  destruct (governance_active (gov w)); [|reflexivity].
  assert (Hd : decide_action X (with_general general ns) action who data c w
               = decide_action X ns action who data c w).
  { unfold decide_action, bind, get_gov, call_missing, lift_method. simpl.
    destruct (ns_generate_decision_id ns) as [gen|]; simpl; [|reflexivity].
    specialize (Hgen gen eq_refl (gov w)).
    destruct (gen action who (gov w)) as [[id|e] g1]; simpl in *;
      [|reflexivity].
    destruct c as [c|]; simpl.
    - rewrite Hgen, Hf. reflexivity.
    - destruct (ns_infer_context ns) as [inf|]; simpl; [|reflexivity].
      specialize (Hinf inf eq_refl g1).
      destruct (inf action who data g1) as [[c'|e] g2]; simpl in *;
        [|reflexivity].
      rewrite Hinf, Hgen, Hf. reflexivity. }
  rewrite (bind_unfold (decide_action X (with_general general ns) _ _ _ _)),
    (bind_unfold (decide_action X ns _ _ _ _)), Hd.
  reflexivity.
Qed.

Lemma registered_interceptor_takes_precedence_witness :
  evaluate_action quiet (with_general None complete_namespace)
    "custom_action" "agent" ∅ None active_world
  = evaluate_action quiet complete_namespace
      "custom_action" "agent" ∅ None active_world.
Proof.
  apply registered_interceptor_takes_precedence.
  - eexists. vm_compute. reflexivity.
  - intros f [= <-] g. reflexivity.
  - intros f [= <-] g. reflexivity.
Defined.



(** An evaluator that raises: the dispatch is the only step. *)
Example raising_registration_stores_nothing :
  steps (env (run faulty with_decision_id
                [Register "custom_action" 7;
                 Evaluate "custom_action" "agent" ∅
                   (Some (default_context "custom_action" (VStr "agent")))]
                active_world))
  = [Dispatch "custom_action" (Function 7)].
Proof. vm_compute. reflexivity. Qed.

(** X14. An evaluator that raises is not turned into a decision: when, on
    an active governor, the interceptor (or a missing method before it)
    raises, [evaluate_action] raises the same exception, and nothing was
    stored in the history, counted or handed to the sink. *)
Theorem failed_evaluation_stores_nothing X ns (action who : string)
  (data : gmap string PyVal) (c : option EthicalContext) (w : World)
  (e : Exception) (w1 : World) :
  governance_active (gov w) = true →
  decide_action X ns action who data c w = (Raise e, w1) →
  evaluate_action X ns action who data c w = (Raise e, w1) ∧
  recorded w1 = recorded w ∧
  emitted (env w1) = emitted (env w).
Proof.
  intros Hact Hd.
  destruct (decide_action_leaves_env X ns action who data c w)
    as (_ & Hem & Hrec).
  rewrite Hd in Hem, Hrec. simpl in Hem, Hrec.
  rewrite evaluate_action_unfold, Hact, bind_unfold, Hd. done.
Qed.

Lemma failed_evaluation_stores_nothing_witness :
  ∃ w1, evaluate_action faulty with_decision_id "custom_action" "agent" ∅
          (Some (default_context "custom_action" (VStr "agent")))
          active_world
        = (Raise (mkException "ValueError" "bad action data"), w1) ∧
    recorded w1 = recorded active_world ∧
    emitted (env w1) = emitted (env active_world) ∧
    decision_history (gov w1) = [] ∧
    total_decisions (ethical_metrics (gov w1)) = 0%Z.
Proof.
  eexists.
  destruct (failed_evaluation_stores_nothing faulty with_decision_id
              "custom_action" "agent" ∅
              (Some (default_context "custom_action" (VStr "agent")))
              active_world (mkException "ValueError" "bad action data")
              {| gov := gov active_world;
                 env := mkEnv 0 [] [Dispatch "custom_action" (Function 0)] |}
              eq_refl ltac:(vm_compute; reflexivity)) as (H1 & H2 & H3).
  split; [exact H1|]. split; [exact H2|]. split; [exact H3|].
  split; reflexivity.
Defined.

(** ** Construction, with the five methods or without *)

(** X15. [__init__] returns an object exactly when the five [_evaluate_*]
    methods are bound; the object then has the five core action types
    registered, each to its bound method, is inactive, in learning mode,
    with an empty history and zeroed counters.  Otherwise it raises
    [AttributeError] for one of the five that is not bound. *)
Theorem init_needs_the_five_methods (ns : Namespace)
  (philosophy : gmap string (list string)) :
  (Forall (λ p, is_Some (ns_interceptor ns p.2)) core_interceptors →
   ∃ g, __init__ ns philosophy = Ok g ∧
     action_interceptors g
     = list_to_map ((λ p, (p.1, BoundMethod p.2)) <$> core_interceptors) ∧
     governance_active g = false ∧ learning_mode g = true ∧
     decision_history g = [] ∧ ethical_metrics g = mkMetrics 0 0 0 0 0) ∧
  (∀ g, __init__ ns philosophy = Ok g →
        Forall (λ p, is_Some (ns_interceptor ns p.2)) core_interceptors) ∧
  (∀ e, __init__ ns philosophy = Raise e →
        ∃ p, p ∈ core_interceptors ∧ ns_interceptor ns p.2 = None ∧
             e = AttributeError p.2).
Proof.
  unfold __init__, _setup_core_interceptors, getattr_method, result_bind,
    core_interceptors.
  destruct (ns_interceptor ns "_evaluate_data_access") eqn:E1.
  2:{ split_and!.
      - intros H. apply Forall_cons in H as [[? H] _]. simpl in H. congruence.
      - discriminate.
      - intros e [= <-]. eexists. split; [apply list_elem_of_here | done]. }
  destruct (ns_interceptor ns "_evaluate_system_modification") eqn:E2.
  2:{ split_and!.
      - intros H. do 1 apply Forall_cons in H as [_ H].
        apply Forall_cons in H as [[? H] _]. simpl in H. congruence.
      - discriminate.
      - intros e [= <-]. eexists.
        split; [do 1 apply list_elem_of_further; apply list_elem_of_here
               | done]. }
  destruct (ns_interceptor ns "_evaluate_user_interaction") eqn:E3.
  2:{ split_and!.
      - intros H. do 2 apply Forall_cons in H as [_ H].
        apply Forall_cons in H as [[? H] _]. simpl in H. congruence.
      - discriminate.
      - intros e [= <-]. eexists.
        split; [do 2 apply list_elem_of_further; apply list_elem_of_here
               | done]. }
  destruct (ns_interceptor ns "_evaluate_ai_decision") eqn:E4.
  2:{ split_and!.
      - intros H. do 3 apply Forall_cons in H as [_ H].
        apply Forall_cons in H as [[? H] _]. simpl in H. congruence.
      - discriminate.
      - intros e [= <-]. eexists.
        split; [do 3 apply list_elem_of_further; apply list_elem_of_here
               | done]. }
  destruct (ns_interceptor ns "_evaluate_network_communication") eqn:E5.
  2:{ split_and!.
      - intros H. do 4 apply Forall_cons in H as [_ H].
        apply Forall_cons in H as [[? H] _]. simpl in H. congruence.
      - discriminate.
      - intros e [= <-]. eexists.
        split; [do 4 apply list_elem_of_further; apply list_elem_of_here
               | done]. }
  split_and!.
  - intros _. eexists. split; [reflexivity|].
    split_and!; reflexivity.
  - intros g _. repeat constructor; simpl; eauto.
  - discriminate.
Qed.

Lemma init_needs_the_five_methods_witness :
  ∃ g, __init__ complete_namespace ∅ = Ok g ∧
    action_interceptors g
    = list_to_map ((λ p, (p.1, BoundMethod p.2)) <$> core_interceptors) ∧
    governance_active g = false ∧ learning_mode g = true ∧
    decision_history g = [] ∧ ethical_metrics g = mkMetrics 0 0 0 0 0.
Proof.
  apply (proj1 (init_needs_the_five_methods complete_namespace ∅)).
  repeat constructor; simpl; eauto.
Defined.

(** ** The weight table does not follow the foundation *)

(** X16. The table [_initialize_principle_weights] returns is the same for
    every two foundations: the weights the loop seeds are the default
    weights.  It has nine entries, each between 0.8 and 1. *)
Theorem principle_weights_ignore_foundation (f1 f2 : list string) :
  _initialize_principle_weights f1 = _initialize_principle_weights f2 ∧
  size (_initialize_principle_weights f1) = 9%nat ∧
  map_Forall (λ _ x, (8 # 10 <= x)%Q ∧ (x <= 1)%Q)
    (_initialize_principle_weights f1).
Proof.
  rewrite !initialize_principle_weights_defaults.
  split; [reflexivity|]. split; [reflexivity|].
  apply map_Forall_to_list. vm_compute.
  repeat constructor; discriminate.
Qed.

(** ** What the sink is told *)

Lemma evaluate_action_env X ns action who data c w :
  (recorded (evaluate_action X ns action who data c w).2 = recorded w ∧
   emitted (env (evaluate_action X ns action who data c w).2)
   = emitted (env w)) ∨
  (∃ d, recorded (evaluate_action X ns action who data c w).2
        = recorded w ++ [d] ∧
        emitted (env (evaluate_action X ns action who data c w).2)
        = emitted (env w) ++ [decision_event d]).
Proof.
  rewrite evaluate_action_unfold.
  destruct (governance_active (gov w)).
  - rewrite bind_unfold.
    destruct (decide_action_leaves_env X ns action who data c w)
      as (_ & Hem & Hrec).
    destruct (decide_action X ns action who data c w) as [[d|e] w1];
      simpl in *; [|by left].
    right. exists d.
    destruct (after_decision_env X ns d w1) as [Hs He].
    unfold recorded in *. rewrite Hs, He, omap_app, Hrec, Hem. done.
  - left. unfold evaluate_inactive, call_missing, lift_method, bind, time,
      ret, raise. simpl.
    destruct (ns_generate_decision_id ns) as [gen|]; simpl; [|done].
    destruct (gen action who (gov w)) as [[id|e] g]; done.
Qed.

(** X17. [evaluate_action] hands the sink exactly the decisions it stores:
    along any run of evaluations and registrations, the events the sink was
    handed are the events of the stored decisions, in the order in which
    they were stored; an evaluation on an inactive governor, or one whose
    evaluator raises, hands it nothing. *)
Theorem sink_is_told_of_stored_decisions X ns (rs : list Request) (w : World) :
  Forall evaluates_or_registers rs →
  emitted (env w) = decision_event <$> recorded w →
  emitted (env (run X ns rs w))
  = decision_event <$> recorded (run X ns rs w).
Proof.
  intros Hrs. revert w. induction Hrs as [|r rs Hr _ IH]; intros w Hw; [done|].
  simpl. apply IH.
  destruct r as [action who data c|action m metadata| |action n];
    simpl in *; try done.
  destruct (evaluate_action_env X ns action who data c w)
    as [[-> ->] | (d & -> & ->)]; [done|].
  by rewrite fmap_app, Hw.
Qed.

Lemma sink_is_told_of_stored_decisions_witness :
  emitted (env (run quiet with_decision_id
                  (Register "custom_action" 0 ::
                   replicate 2 (Evaluate "custom_action" "agent" ∅
                                  (Some (default_context "custom_action"
                                           (VStr "agent")))))
                  active_world))
  = decision_event <$>
    recorded (run quiet with_decision_id
                (Register "custom_action" 0 ::
                 replicate 2 (Evaluate "custom_action" "agent" ∅
                                (Some (default_context "custom_action"
                                         (VStr "agent")))))
                active_world).
Proof.
  apply sink_is_told_of_stored_decisions.
  - repeat constructor.
  - reflexivity.
Defined.

(** X18. [review_decision] hands the sink at most one event, for the action
    reviewed, and only for a decision of the general evaluation: the weight
    of the event is ["info"], ["concern"] or ["violation"], never
    ["critical"], so the sink is not told of a fail-closed decision. *)
Theorem review_decision_tells_no_critical X (action : string)
  (m : gmap string PyVal) (metadata : option (gmap string PyVal)) (w : World) :
  emitted (env (review_decision X action (ADict m) metadata w).2)
  = emitted (env w) ∨
  ∃ ev, emitted (env (review_decision X action (ADict m) metadata w).2)
        = emitted (env w) ++ [ev] ∧
        ev_type ev = action ∧
        (ev_weight ev = "info" ∨ ev_weight ev = "concern" ∨
         ev_weight ev = "violation") ∧
        ev_weight ev ≠ "critical".
Proof.
  unfold review_decision, try_except, review_try, review_except,
    _evaluate_action, call, perceive, bind, time, log, lift_result, ret.
  simpl.
  destruct (_check_violations action _) as [[|v vs]|e]; simpl.
  - destruct (_check_concerns action _) as [[|k ks]|e]; simpl;
      [destruct (perceive_ethical_decision X _ _); simpl..| by left];
      right; eexists; (split; [reflexivity|]); simpl;
      split_and!; eauto; discriminate.
  - destruct (perceive_ethical_decision X _ _); simpl;
      right; eexists; (split; [reflexivity|]); simpl;
      split_and!; eauto; discriminate.
  - by left.
Qed.

(** ** [to_dict] *)

Lemma decision_value_inj k1 k2 :
  decision_value k1 = decision_value k2 → k1 = k2.
Proof. destruct k1, k2; simpl; intros H; congruence. Qed.

Lemma severity_value_inj s1 s2 :
  severity_value s1 = severity_value s2 → s1 = s2.
Proof. destruct s1, s2; simpl; intros H; congruence. Qed.

Lemma fmap_VStr_inj (l1 l2 : list string) :
  VStr <$> l1 = VStr <$> l2 → l1 = l2.
Proof.
  revert l2. induction l1 as [|x l1 IH]; intros [|y l2] H; simpl in H;
    try done.
  injection H as -> H. f_equal. by apply IH.
Qed.

Lemma option_str_inj o1 o2 : option_str o1 = option_str o2 → o1 = o2.
Proof. destruct o1, o2; simpl; congruence. Qed.

(** *** The copy *)

Lemma first_failure_none {A} (f : A → option Exception) (l : list A) :
  first_failure f l = None ↔ Forall (λ x, f x = None) l.
Proof.
  induction l as [|x l IH]; simpl.
  - split; [constructor | done].
  - rewrite Forall_cons, <- IH. destruct (f x); split; try done.
    + intros [? _]. done.
    + intros [_ ?]. done.
Qed.

Lemma asdict_inner_ok ce v v' :
  asdict_inner ce v = Ok v' → v' = v ∧ copy_failure ce v = None.
Proof.
  unfold asdict_inner. destruct (copy_failure ce v); [done|].
  intros [= <-]. done.
Qed.

Lemma asdict_inner_copy ce v :
  copy_failure ce v = None → asdict_inner ce v = Ok v.
Proof. unfold asdict_inner. intros ->. reflexivity. Qed.

Lemma asdict_dict_ok ce m m' :
  asdict_dict ce m = Ok m' →
  m' = m ∧ Forall (λ v, copy_failure ce v = None) (map_to_list m).*2.
Proof.
  unfold asdict_dict.
  destruct (first_failure _ _) eqn:E; [done|].
  intros [= <-]. split; [done|]. by apply first_failure_none.
Qed.

Lemma asdict_dict_copy ce m :
  Forall (λ v, copy_failure ce v = None) (map_to_list m).*2 →
  asdict_dict ce m = Ok m.
Proof.
  intros H. unfold asdict_dict.
  apply first_failure_none in H. rewrite H. reflexivity.
Qed.

(** Values that hold no object are copied whatever [deepcopy] does. *)
Example lists_of_strings_are_copied ce (l : list string) :
  asdict_inner ce (strs l) = Ok (strs l).
Proof.
  apply asdict_inner_copy. unfold strs. simpl.
  induction l as [|x l IH]; simpl; done.
Qed.

Ltac copy_inversion H :=
  repeat
    match type of H with
    | context [asdict_inner ?ce ?v] =>
        let E := fresh "E" in
        destruct (asdict_inner ce v) as [?|?] eqn:E; simpl in H;
        [apply asdict_inner_ok in E as [-> ?] | discriminate H]
    | context [asdict_dict ?ce ?m] =>
        let E := fresh "E" in
        destruct (asdict_dict ce m) as [?|?] eqn:E; simpl in H;
        [apply asdict_dict_ok in E as [-> ?] | discriminate H]
    end.

(** [asdict] returns exactly when every value can be copied, and then the
    dict holds the fields as they are. *)
Lemma asdict_ok ce d r :
  asdict ce d = Ok r ↔
  copyable ce d ∧
  r = [("decision_id", IVal (VStr (decision_id d)));
       ("timestamp", IVal (VFloat (timestamp d)));
       ("action_type", IVal (VStr (action_type d)));
       ("actor", IVal (actor d));
       ("context",
        IRecord
          [("action_type", IVal (VStr (ctx_action_type (context d))));
           ("actor", IVal (ctx_actor (context d)));
           ("target", IVal (ctx_target (context d)));
           ("scope", IVal (ctx_scope (context d)));
           ("user_consent", IVal (ctx_user_consent (context d)));
           ("reversible", IVal (ctx_reversible (context d)));
           ("persistent", IVal (ctx_persistent (context d)));
           ("sensitive_data_involved",
            IVal (ctx_sensitive_data_involved (context d)));
           ("system_modification",
            IVal (ctx_system_modification (context d)));
           ("user_visible", IVal (ctx_user_visible (context d)));
           ("metadata", IMap (ctx_metadata (context d)))]);
       ("decision", IDecisionType (decision d));
       ("severity", ISeverity (severity d));
       ("affected_principles", IVal (strs (affected_principles d)));
       ("reasoning", IVal (VStr (reasoning d)));
       ("confidence", IVal (VFloat (confidence d)));
       ("restrictions", IVal (strs (restrictions d)));
       ("monitoring_requirements", IVal (strs (monitoring_requirements d)));
       ("escalation_reason", IVal (option_str (escalation_reason d)))].
Proof.
  unfold copyable, copied_values. split.
  - intros H. unfold asdict, asdict_context, result_bind in H.
    copy_inversion H. injection H as <-.
    split; [|reflexivity].
    apply Forall_app. split; [|done]. repeat constructor; done.
  - intros [H ->]. apply Forall_app in H as [H Hm].
    repeat (apply Forall_cons in H as [? H]).
    unfold asdict, asdict_context, result_bind.
    rewrite !asdict_inner_copy by done.
    rewrite asdict_dict_copy by done. reflexivity.
Qed.

(** When [asdict] does not return, it raises. *)
Lemma asdict_raises ce d :
  ¬ copyable ce d → ∃ e, asdict ce d = Raise e.
Proof.
  intros Hn. destruct (asdict ce d) as [r|e] eqn:E; [|eauto].
  apply asdict_ok in E as [Hc _]. done.
Qed.

(** X19. [to_dict] returns exactly when every value of the decision can be
    copied and the timestamp renders.  When a value cannot be copied it
    raises what [asdict] raises, whatever the timestamp; when the values
    can be copied and the rendering raises, it raises that.  The dict
    returned has the thirteen fields as keys, in their order, then
    ["datetime"], which holds the rendering; ["decision"] and ["severity"]
    hold the lower-case string of the member, and no member of an
    enumeration is left in the dict. *)
Theorem to_dict_renders_enums (deepcopy_error : PyVal → option Exception)
  (utc_isoformat : Q → Result string) (d : EthicalDecision) :
  (∀ r, to_dict deepcopy_error utc_isoformat d = Ok r →
     copyable deepcopy_error d ∧
     ∃ iso, utc_isoformat (timestamp d) = Ok iso ∧
       r.*1 = ["decision_id"; "timestamp"; "action_type"; "actor"; "context";
               "decision"; "severity"; "affected_principles"; "reasoning";
               "confidence"; "restrictions"; "monitoring_requirements";
               "escalation_reason"; "datetime"] ∧
       dict_lookup "actor" r = Some (IVal (actor d)) ∧
       dict_lookup "decision" r
       = Some (IVal (VStr (decision_value (decision d)))) ∧
       dict_lookup "severity" r
       = Some (IVal (VStr (severity_value (severity d)))) ∧
       dict_lookup "datetime" r = Some (IVal (VStr iso)) ∧
       Forall (λ p, ¬ is_enum_member p.2) r) ∧
  (copyable deepcopy_error d →
   ∀ iso, utc_isoformat (timestamp d) = Ok iso →
     ∃ r, to_dict deepcopy_error utc_isoformat d = Ok r) ∧
  (¬ copyable deepcopy_error d →
   ∃ e, asdict deepcopy_error d = Raise e ∧
        to_dict deepcopy_error utc_isoformat d = Raise e) ∧
  (copyable deepcopy_error d →
   ∀ e, utc_isoformat (timestamp d) = Raise e →
     to_dict deepcopy_error utc_isoformat d = Raise e).
Proof.
  split_and!.
  - intros r H. unfold to_dict in H.
    destruct (asdict deepcopy_error d) as [r0|] eqn:E; [|discriminate H].
    apply asdict_ok in E as [Hc ->]. split; [exact Hc|].
    simpl in H.
    destruct (utc_isoformat (timestamp d)) as [iso|]; [|discriminate H].
    injection H as <-. exists iso. cbn.
    split_and!; try reflexivity. repeat constructor; simpl; tauto.
  - intros Hc iso Hiso. unfold to_dict.
    rewrite (proj2 (asdict_ok deepcopy_error d _) (conj Hc eq_refl)).
    simpl. rewrite Hiso. eauto.
  - intros Hn. destruct (asdict_raises deepcopy_error d Hn) as [e He].
    exists e. split; [exact He|]. unfold to_dict. rewrite He. reflexivity.
  - intros Hc e He. unfold to_dict.
    rewrite (proj2 (asdict_ok deepcopy_error d _) (conj Hc eq_refl)).
    simpl. rewrite He. reflexivity.
Qed.

(** A decision of the registered evaluator is rendered; a decision on a
    context whose target is a lock is not, though its timestamp renders. *)
Lemma to_dict_renders_enums_witness :
  (∃ r, to_dict copies_all (λ _, Ok "2023-11-14T22:13:20+00:00")
          (sample_decision "agent"
             (default_context "custom_action" (VStr "agent")) "id-1")
        = Ok r) ∧
  (∃ e, asdict no_locks decision_on_a_lock = Raise e ∧
        to_dict no_locks (λ _, Ok "2023-11-14T22:13:20+00:00")
          decision_on_a_lock = Raise e).
Proof.
  split.
  - apply (proj1 (proj2 (to_dict_renders_enums copies_all
                           (λ _, Ok "2023-11-14T22:13:20+00:00")
                           (sample_decision "agent"
                              (default_context "custom_action" (VStr "agent"))
                              "id-1")))
             ltac:(repeat constructor) "2023-11-14T22:13:20+00:00" eq_refl).
  - apply (proj1 (proj2 (proj2 (to_dict_renders_enums no_locks
                                  (λ _, Ok "2023-11-14T22:13:20+00:00")
                                  decision_on_a_lock)))).
    intros H. apply Forall_cons in H as [_ H].
    apply Forall_cons in H as [_ H]. apply Forall_cons in H as [H _].
    vm_compute in H. discriminate H.
Defined.

(** What is raised then is the exception of the copy. *)
Example to_dict_on_a_lock :
  to_dict no_locks (λ _, Ok "2023-11-14T22:13:20+00:00") decision_on_a_lock
  = Raise (mkException "TypeError" "cannot pickle '_thread.lock' object").
Proof. vm_compute. reflexivity. Qed.

(** X20. [to_dict] loses nothing: two decisions with the same dict are the
    same decision, so also the kind and the severity can be read back from
    their strings. *)
Theorem to_dict_lossless (deepcopy_error : PyVal → option Exception)
  (utc_isoformat : Q → Result string)
  (d1 d2 : EthicalDecision) (r : list (string * Item)) :
  to_dict deepcopy_error utc_isoformat d1 = Ok r →
  to_dict deepcopy_error utc_isoformat d2 = Ok r →
  d1 = d2.
Proof.
  unfold to_dict. intros H1 H2.
  destruct (asdict deepcopy_error d1) as [r1|] eqn:E1; [|discriminate H1].
  destruct (asdict deepcopy_error d2) as [r2|] eqn:E2; [|discriminate H2].
  apply asdict_ok in E1 as [_ ->]. apply asdict_ok in E2 as [_ ->].
  simpl in H1, H2.
  destruct (utc_isoformat (timestamp d1)) as [iso1|]; [|discriminate H1].
  destruct (utc_isoformat (timestamp d2)) as [iso2|]; [|discriminate H2].
  revert H1 H2.
  destruct d1 as [id1 t1 a1 who1 [] k1 s1 p1 r1 c1 rs1 ms1 e1],
    d2 as [id2 t2 a2 who2 [] k2 s2 p2 r2 c2 rs2 ms2 e2].
  cbn. intros [= <-] Heq. simplify_eq.
  repeat match goal with
         | H : decision_value _ = decision_value _ |- _ =>
             apply decision_value_inj in H
         | H : severity_value _ = severity_value _ |- _ =>
             apply severity_value_inj in H
         | H : VStr <$> _ = VStr <$> _ |- _ => apply fmap_VStr_inj in H
         | H : option_str _ = option_str _ |- _ => apply option_str_inj in H
         end.
  by subst.
Qed.

Lemma to_dict_lossless_witness :
  sample_decision "agent" (default_context "custom_action" (VStr "agent"))
    "id-1"
  = {| decision_id := "id-1"; timestamp := 0%Q;
       action_type := "custom_action"; actor := VStr "agent";
       context := default_context "custom_action" (VStr "agent");
       decision := ALLOW; severity := INFO; affected_principles := [];
       reasoning := "approved by the registered evaluator";
       confidence := 1%Q; restrictions := []; monitoring_requirements := [];
       escalation_reason := None |}.
Proof.
  eapply (to_dict_lossless copies_all (λ _, Ok "2023-11-14T22:13:20+00:00"));
    vm_compute; reflexivity.
Defined.
